(** * Deployment reporter: a shallow embedding of [main.go]

    The step parses a repository URL, posts a "create deployment" request
    and then a "create deployment status" request addressed with the
    identifier found in the first response.

    Go strings are byte strings; they are modelled by [string] (one [ascii]
    per byte).  The only runes the program tests for are ['/'] and [':'],
    both single bytes that never occur inside a multi-byte UTF-8 sequence,
    so splitting byte by byte yields the same fields as Go's rune loop. *)

From Stdlib Require Import String Ascii List Bool Arith ZArith Lia.
From Stdlib Require Import DecimalString DecimalPos.
Import ListNotations.

Local Open Scope string_scope.

(** ** Run-time panics and results of functions that may panic *)

Inductive panic : Type :=
| IndexOutOfRange (index len : nat)   (* a[i] with i >= len(a) *)
| NilDereference.                     (* method call on a nil interface *)

Inductive outcome (A : Type) : Type :=
| Returned (a : A)
| Panicked (p : panic).

Arguments Returned {A} a.
Arguments Panicked {A} p.

(** ** Package [strings] *)

Module strings.

(** [s[i:j]] for [i <= j <= len(s)]. *)
Definition slice (s : string) (i j : nat) : string := substring i (j - i) s.

(** [HasPrefix]: [len(s) >= len(prefix) && s[0:len(prefix)] == prefix]. *)
Definition HasPrefix (s prefix : string) : bool :=
  (String.length prefix <=? String.length s)%nat
  && (slice s 0 (String.length prefix) =? prefix).

(** [HasSuffix]: [len(s) >= len(suffix) && s[len(s)-len(suffix):] == suffix]. *)
Definition HasSuffix (s suffix : string) : bool :=
  (String.length suffix <=? String.length s)%nat
  && (slice s (String.length s - String.length suffix) (String.length s) =? suffix).

Definition TrimPrefix (s prefix : string) : string :=
  if HasPrefix s prefix then slice s (String.length prefix) (String.length s)
  else s.

Definition TrimSuffix (s suffix : string) : string :=
  if HasSuffix s suffix then slice s 0 (String.length s - String.length suffix)
  else s.

(** [FieldsFunc]: the loop keeps the start of the field being read
    ([start >= 0]); here [cur] is [Some w] when a field is open and [w] is
    the part of it read so far.  A separator closes the open field, any
    other byte opens or extends one, and the end of the string closes the
    last field. *)
Fixpoint FieldsFunc_loop (f : ascii -> bool) (s : string) (cur : option string)
  : list string :=
  match s with
  | EmptyString =>
      match cur with
      | Some w => [w]
      | None => []
      end
  | String c s' =>
      if f c then
        match cur with
        | Some w => w :: FieldsFunc_loop f s' None
        | None => FieldsFunc_loop f s' None
        end
      else
        match cur with
        | Some w => FieldsFunc_loop f s' (Some (w ++ String c EmptyString))
        | None => FieldsFunc_loop f s' (Some (String c EmptyString))
        end
  end.

Definition FieldsFunc (s : string) (f : ascii -> bool) : list string :=
  FieldsFunc_loop f s None.

(** [isSeparator] of [strings.Title]: letters, digits and underscore are
    not separators, every other ASCII byte is.  Bytes above 127 belong to
    multi-byte runes; they are kept as they are and treated as letters,
    which is exact for the ASCII strings the program passes. *)
Definition isSeparator (c : ascii) : bool :=
  let n := nat_of_ascii c in
  (if 128 <=? n then false
  else if (48 <=? n) && (n <=? 57) then false
  else if (97 <=? n) && (n <=? 122) then false
  else if (65 <=? n) && (n <=? 90) then false
  else if n =? 95 then false
  else true)%nat.

Definition toTitle (c : ascii) : ascii :=
  let n := nat_of_ascii c in
  if ((97 <=? n) && (n <=? 122))%nat then ascii_of_nat (n - 32) else c.

Fixpoint Title_loop (prev : ascii) (s : string) : string :=
  match s with
  | EmptyString => EmptyString
  | String c s' =>
      String (if isSeparator prev then toTitle c else c) (Title_loop c s')
  end.

(** [Title]: the first letter of every word is mapped to title case; the
    scan starts as if a space preceded the string. *)
Definition Title (s : string) : string := Title_loop " "%char s.

End strings.

(** Indexing a slice: [a[i]] panics when [i] is out of range. *)
Definition index_slice {A : Type} (a : list A) (i : nat) : outcome A :=
  match nth_error a i with
  | Some x => Returned x
  | None => Panicked (IndexOutOfRange i (List.length a))
  end.

(** ** The repository URL parser *)

(** The separator test of [ownerAndRepo]: [r == '/' || r == ':']. *)
Definition isURLSeparator (r : ascii) : bool :=
  (r =? "/")%char || (r =? ":")%char.

(** The fields [ownerAndRepo] indexes: the URL without its ["https://"] and
    ["git@"] prefixes, split at ['/'] and [':']. *)
Definition urlFields (url : string) : list string :=
  let url := strings.TrimPrefix (strings.TrimPrefix url "https://") "git@" in
  strings.FieldsFunc url isURLSeparator.

Definition ownerAndRepo (url : string) : outcome (string * string) :=
  let a := urlFields url in
  match index_slice a 1 with
  | Panicked p => Panicked p
  | Returned owner =>
      match index_slice a 2 with
      | Panicked p => Panicked p
      | Returned repo => Returned (owner, strings.TrimSuffix repo ".git")
      end
  end.


(** ** Package [encoding/json] *)

Module json.

#[warnings="-register-all"]
Inductive value : Type :=
| Null
| Bool (b : bool)
| Number (literal : string)
| Str (s : string)
| Array (items : list value)
| Object (members : list (string * value)).

(** *** Encoding of structs *)

(** A struct field as [Marshal] sees it: the key given by its tag, whether
    the tag says [omitempty], and the encoded value. *)
Record field : Type := mkField {
  key : string;
  omitempty : bool;
  encoded : value
}.

Definition isEmptyValue (v : value) : bool :=
  match v with
  | Null => true
  | Bool b => negb b
  | Number n => n =? "0"
  | Str s => s =? ""
  | Array items => match items with [] => true | _ => false end
  | Object _ => false
  end.

Definition marshalStruct (fields : list field) : value :=
  Object
    (map (fun f => (key f, encoded f))
         (filter (fun f => negb (omitempty f && isEmptyValue (encoded f))) fields)).

(** The value stored under the first member named [k] of an object. *)
Fixpoint lookup (k : string) (members : list (string * value)) : option value :=
  match members with
  | [] => None
  | (k', v) :: rest => if k' =? k then Some v else lookup k rest
  end.

Definition member (k : string) (v : value) : option value :=
  match v with
  | Object members => lookup k members
  | _ => None
  end.

(** *** Decoding *)

Definition quote : ascii := "034"%char.
Definition backslash : ascii := "092"%char.

Definition isSpace (c : ascii) : bool :=
  ((c =? " ") || (c =? "009") || (c =? "010") || (c =? "013"))%char.

Definition isDigit (c : ascii) : bool :=
  let n := nat_of_ascii c in ((48 <=? n) && (n <=? 57))%nat.

Fixpoint skipSpace (s : string) : string :=
  match s with
  | String c s' => if isSpace c then skipSpace s' else s
  | EmptyString => s
  end.

(** The longest run of digits at the head of [s], and what follows it. *)
Fixpoint digits (s : string) : string * string :=
  match s with
  | String c s' =>
      if isDigit c then let (d, r) := digits s' in (String c d, r)
      else (EmptyString, s)
  | EmptyString => (EmptyString, s)
  end.

Definition digits1 (s : string) : option (string * string) :=
  match digits s with
  | (EmptyString, _) => None
  | (d, r) => Some (d, r)
  end.

(** A number literal: an optional minus sign; then 0, or a digit from 1 to
    9 followed by any digits; then optionally a dot and at least one digit;
    then optionally e or E, an optional sign and at least one digit. *)
Definition scanNumber (s : string) : option (string * string) :=
  let (sign, s1) :=
    match s with
    | String "-" r => ("-", r)
    | _ => ("", s)
    end in
  let int_part :=
    match s1 with
    | String "0" r => Some ("0", r)
    | _ => digits1 s1
    end in
  match int_part with
  | None => None
  | Some (i, s2) =>
      let frac_part :=
        match s2 with
        | String "." r =>
            match digits1 r with
            | Some (d, r') => Some ("." ++ d, r')
            | None => None
            end
        | _ => Some ("", s2)
        end in
      match frac_part with
      | None => None
      | Some (f, s3) =>
          match s3 with
          | String e r =>
              if ((e =? "e") || (e =? "E"))%char then
                let (esign, r1) :=
                  match r with
                  | String "+" r' => ("+", r')
                  | String "-" r' => ("-", r')
                  | _ => ("", r)
                  end in
                match digits1 r1 with
                | Some (d, r2) =>
                    Some (sign ++ i ++ f ++ String e (esign ++ d), r2)
                | None => None
                end
              else Some (sign ++ i ++ f, s3)
          | EmptyString => Some (sign ++ i ++ f, s3)
          end
      end
  end.

Definition hexDigit (c : ascii) : option N :=
  let n := N_of_ascii c in
  (if (48 <=? n) && (n <=? 57) then Some (n - 48)
   else if (97 <=? n) && (n <=? 102) then Some (n - 87)
   else if (65 <=? n) && (n <=? 70) then Some (n - 55)
   else None)%N.

Definition hex4 (a b c d : ascii) : option N :=
  match hexDigit a, hexDigit b, hexDigit c, hexDigit d with
  | Some x, Some y, Some z, Some t => Some (((x * 16 + y) * 16 + z) * 16 + t)%N
  | _, _, _, _ => None
  end.

Definition byte (n : N) : string := String (ascii_of_N n) EmptyString.

(** UTF-8 encoding of a code point. *)
Definition utf8 (n : N) : string :=
  (if n <? 128 then byte n
   else if n <? 2048 then byte (192 + n / 64) ++ byte (128 + n mod 64)
   else if n <? 65536 then
     byte (224 + n / 4096) ++ byte (128 + (n / 64) mod 64) ++ byte (128 + n mod 64)
   else
     byte (240 + n / 262144) ++ byte (128 + (n / 4096) mod 64)
     ++ byte (128 + (n / 64) mod 64) ++ byte (128 + n mod 64))%N.

Definition replacementChar : N := 65533.

Definition isHighSurrogate (n : N) : bool := ((55296 <=? n) && (n <? 56320))%N.
Definition isLowSurrogate (n : N) : bool := ((56320 <=? n) && (n <? 57344))%N.

Definition unescape (c : ascii) : option ascii :=
  (if (c =? quote) || (c =? backslash) || (c =? "/") then Some c
   else if c =? "b" then Some "008"
   else if c =? "f" then Some "012"
   else if c =? "n" then Some "010"
   else if c =? "r" then Some "013"
   else if c =? "t" then Some "009"
   else None)%char.

Definition consTo (pre : string) (r : option (string * string))
  : option (string * string) :=
  match r with
  | Some (t, rest) => Some (pre ++ t, rest)
  | None => None
  end.

(** A string literal after its opening quote: the decoded text and the
    input after the closing quote.  Control bytes and unknown escapes are
    syntax errors; a [\u] escape yields the UTF-8 encoding of its code
    point, a surrogate pair that of the pair, a lone surrogate U+FFFD.
    Bytes above 127 are copied as they are. *)
Fixpoint scanString (s : string) : option (string * string) :=
  match s with
  | EmptyString => None
  | String c r =>
      if (c =? quote)%char then Some (EmptyString, r)
      else if (c =? backslash)%char then
        match r with
        | String "u" (String h1 (String h2 (String h3 (String h4 r1)))) =>
            match hex4 h1 h2 h3 h4 with
            | None => None
            | Some n =>
                if isHighSurrogate n then
                  match r1 with
                  | String b (String "u" (String l1 (String l2 (String l3 (String l4 r2))))) =>
                      match (if (b =? backslash)%char then hex4 l1 l2 l3 l4 else None) with
                      | Some m =>
                          if isLowSurrogate m then
                            consTo (utf8 (65536 + (n - 55296) * 1024 + (m - 56320))%N)
                                   (scanString r2)
                          else consTo (utf8 replacementChar) (scanString r1)
                      | None => consTo (utf8 replacementChar) (scanString r1)
                      end
                  | _ => consTo (utf8 replacementChar) (scanString r1)
                  end
                else if isLowSurrogate n then
                  consTo (utf8 replacementChar) (scanString r1)
                else consTo (utf8 n) (scanString r1)
            end
        | String e r1 =>
            match unescape e with
            | Some b => consTo (String b EmptyString) (scanString r1)
            | None => None
            end
        | EmptyString => None
        end
      else if (nat_of_ascii c <? 32)%nat then None
      else consTo (String c EmptyString) (scanString r)
  end.

Definition maxNestingDepth : N := 10000.

(** Values, the elements of an array after its first, and the members of
    an object after its first.  Every call reads at least one byte before
    the next one, so [fuel] twice the length of the input is never used up.
    [depth] counts the open arrays and objects. *)
Fixpoint parseValue (fuel : nat) (depth : N) (s : string) : option (value * string) :=
  match fuel with
  | O => None
  | S fuel' =>
      match s with
      | EmptyString => None
      | String c r =>
          if (c =? quote)%char then
            match scanString r with
            | Some (t, rest) => Some (Str t, rest)
            | None => None
            end
          else if (c =? "[")%char then
            if (maxNestingDepth <=? depth)%N then None
            else
              match skipSpace r with
              | String "]" rest => Some (Array [], rest)
              | r' =>
                  match parseValue fuel' (N.succ depth) r' with
                  | Some (v, rest) =>
                      match parseElements fuel' (N.succ depth) (skipSpace rest) with
                      | Some (vs, rest') => Some (Array (v :: vs), rest')
                      | None => None
                      end
                  | None => None
                  end
              end
          else if (c =? "{")%char then
            if (maxNestingDepth <=? depth)%N then None
            else
              match skipSpace r with
              | String "}" rest => Some (Object [], rest)
              | r' =>
                  match parseMember fuel' (N.succ depth) r' with
                  | Some (m, rest) =>
                      match parseMembers fuel' (N.succ depth) (skipSpace rest) with
                      | Some (ms, rest') => Some (Object (m :: ms), rest')
                      | None => None
                      end
                  | None => None
                  end
              end
          else if (prefix "true" s) then Some (Bool true, substring 4 (String.length s - 4) s)
          else if (prefix "false" s) then Some (Bool false, substring 5 (String.length s - 5) s)
          else if (prefix "null" s) then Some (Null, substring 4 (String.length s - 4) s)
          else
            match scanNumber s with
            | Some (lit, rest) => Some (Number lit, rest)
            | None => None
            end
      end
  end

with parseElements (fuel : nat) (depth : N) (s : string) : option (list value * string) :=
  match fuel with
  | O => None
  | S fuel' =>
      match s with
      | String "]" rest => Some ([], rest)
      | String "," r =>
          match parseValue fuel' depth (skipSpace r) with
          | Some (v, rest) =>
              match parseElements fuel' depth (skipSpace rest) with
              | Some (vs, rest') => Some (v :: vs, rest')
              | None => None
              end
          | None => None
          end
      | _ => None
      end
  end

with parseMember (fuel : nat) (depth : N) (s : string) : option ((string * value) * string) :=
  match fuel with
  | O => None
  | S fuel' =>
      match s with
      | String c r =>
          if (c =? quote)%char then
            match scanString r with
            | Some (k, rest) =>
                match skipSpace rest with
                | String ":" r' =>
                    match parseValue fuel' depth (skipSpace r') with
                    | Some (v, rest') => Some ((k, v), rest')
                    | None => None
                    end
                | _ => None
                end
            | None => None
            end
          else None
      | EmptyString => None
      end
  end

with parseMembers (fuel : nat) (depth : N) (s : string)
  : option (list (string * value) * string) :=
  match fuel with
  | O => None
  | S fuel' =>
      match s with
      | String "}" rest => Some ([], rest)
      | String "," r =>
          match parseMember fuel' depth (skipSpace r) with
          | Some (m, rest) =>
              match parseMembers fuel' depth (skipSpace rest) with
              | Some (ms, rest') => Some (m :: ms, rest')
              | None => None
              end
          | None => None
          end
      | _ => None
      end
  end.

(** [checkValid]: the whole input is one value between optional spaces. *)
Definition parse (data : string) : option value :=
  match parseValue (2 * String.length data + 2) 0%N (skipSpace data) with
  | Some (v, rest) =>
      match skipSpace rest with
      | EmptyString => Some v
      | _ => None
      end
  | None => None
  end.

Inductive error : Type :=
| SyntaxError
| UnmarshalTypeError (what : string) (goField : string).

(** [strconv.ParseInt(literal, 10, 64)] on a number literal: digits with an
    optional minus sign, within the range of a 64-bit [int]. *)
Fixpoint decimal (acc : Z) (s : string) : option Z :=
  match s with
  | EmptyString => Some acc
  | String c s' =>
      if isDigit c then decimal (10 * acc + (Z.of_nat (nat_of_ascii c) - 48))%Z s'
      else None
  end.

Definition ParseInt (literal : string) : option Z :=
  let n :=
    match literal with
    | String "-" d => option_map Z.opp (decimal 0 d)
    | _ => decimal 0 literal
    end in
  match n with
  | Some z =>
      if ((- 2 ^ 63 <=? z) && (z <? 2 ^ 63))%Z then Some z else None
  | None => None
  end.

Definition lower (c : ascii) : ascii :=
  let n := nat_of_ascii c in
  if ((65 <=? n) && (n <=? 90))%nat then ascii_of_nat (n + 32) else c.

(** Field names are matched exactly or, failing that, without regard to
    case.  The two names at hand consist of ASCII letters other than K and
    S, which fold only with their ASCII counterparts. *)
Fixpoint equalFold (a b : string) : bool :=
  match a, b with
  | EmptyString, EmptyString => true
  | String x a', String y b' => (lower x =? lower y)%char && equalFold a' b'
  | _, _ => false
  end.

Definition kindName (v : value) : string :=
  match v with
  | Null => "null"
  | Bool _ => "bool"
  | Number _ => "number"
  | Str _ => "string"
  | Array _ => "array"
  | Object _ => "object"
  end.

End json.

(** ** The response of the deployment-creation call

    [Response] is the struct declared inside [createDeployment].  Its tags
    are written with a space after the colon, which the tag syntax does
    not accept, so the fields are decoded under their Go names [Id] and
    [Url], matched without regard to case. *)
Record Response : Type := mkResponse {
  Id : Z;
  Url : string
}.

Definition zeroResponse : Response := {| Id := 0; Url := "" |}.

(** Decoding one member into the struct.  A value of the wrong kind, or a
    number that is not a 64-bit integer, leaves the field as it is and is
    reported; [null] and unknown keys are skipped. *)
Definition decodeMember (k : string) (v : json.value) (r : Response)
  : Response * option json.error :=
  if (k =? "Id") || json.equalFold k "Id" then
    match v with
    | json.Null => (r, None)
    | json.Number lit =>
        match json.ParseInt lit with
        | Some n => ({| Id := n; Url := Url r |}, None)
        | None => (r, Some (json.UnmarshalTypeError ("number " ++ lit) "Id"))
        end
    | _ => (r, Some (json.UnmarshalTypeError (json.kindName v) "Id"))
    end
  else if (k =? "Url") || json.equalFold k "Url" then
    match v with
    | json.Null => (r, None)
    | json.Str s => ({| Id := Id r; Url := s |}, None)
    | _ => (r, Some (json.UnmarshalTypeError (json.kindName v) "Url"))
    end
  else (r, None).

(** The members are decoded in order; the first error is the one kept. *)
Fixpoint decodeMembers (ms : list (string * json.value)) (r : Response)
  : Response * option json.error :=
  match ms with
  | [] => (r, None)
  | (k, v) :: rest =>
      let (r1, e1) := decodeMember k v r in
      let (r2, e2) := decodeMembers rest r1 in
      (r2, match e1 with Some e => Some e | None => e2 end)
  end.

(** [json.Unmarshal(data, &response)]: invalid input leaves the struct
    untouched. *)
Definition Unmarshal (data : string) (r : Response) : Response * option json.error :=
  match json.parse data with
  | None => (r, Some json.SyntaxError)
  | Some (json.Object ms) => decodeMembers ms r
  | Some json.Null => (r, None)
  | Some v => (r, Some (json.UnmarshalTypeError (json.kindName v) "Response"))
  end.

(** Test data is written with apostrophes in place of double quotes. *)
Definition withQuotes (s : string) : string :=
  string_of_list_ascii
    (map (fun c => if (c =? "'")%char then json.quote else c) (list_ascii_of_string s)).

(** ** Configuration and request payloads *)

Record config : Type := mkConfig {
  AuthToken : string;
  RepositoryURL : string;
  CommitHash : string;
  APIURL : string;
  State : string;
  BuildURL : string;
  StatusIdentifier : string;
  Description : string;
  Verbose : bool
}.

(** A slice of strings is [nil] ([None]) or holds a list of items. *)
Record deploymentRequest : Type := mkDeploymentRequest {
  dr_RequiredContexts : option (list string);
  dr_Ref : string;
  dr_Environment : string;
  dr_State : string;
  dr_TargetURL : string;
  dr_Description : string;
  dr_Context : string
}.

Record deploymentStatusRequest : Type := mkDeploymentStatusRequest {
  ds_EnvironmentUrl : string;
  ds_Environment : string;
  ds_State : string;
  ds_Description : string
}.

Definition encodeStrings (l : option (list string)) : json.value :=
  match l with
  | None => json.Null
  | Some items => json.Array (map json.Str items)
  end.

(** [json.Marshal] of the two payloads, field by field with the tags of
    the struct declarations.  Structs of strings always encode, so the
    error [Marshal] returns is [nil]. *)
Definition Marshal_deploymentRequest (r : deploymentRequest) : json.value :=
  json.marshalStruct
    [ json.mkField "required_contexts" false (encodeStrings (dr_RequiredContexts r));
      json.mkField "ref" false (json.Str (dr_Ref r));
      json.mkField "environment" false (json.Str (dr_Environment r));
      json.mkField "state" false (json.Str (dr_State r));
      json.mkField "target_url" true (json.Str (dr_TargetURL r));
      json.mkField "description" true (json.Str (dr_Description r));
      json.mkField "context" true (json.Str (dr_Context r)) ].

Definition Marshal_deploymentStatusRequest (r : deploymentStatusRequest)
  : json.value :=
  json.marshalStruct
    [ json.mkField "environment_url" false (json.Str (ds_EnvironmentUrl r));
      json.mkField "environment" false (json.Str (ds_Environment r));
      json.mkField "state" false (json.Str (ds_State r));
      json.mkField "description" true (json.Str (ds_Description r)) ].

(** ** HTTP messages and the outside world *)

Record request : Type := mkRequest {
  Method : string;
  URL : string;
  Header : list (string * string);
  Payload : json.value
}.

(** Reading a response body to its end yields its bytes or fails. *)
Inductive body : Type :=
| Readable (data : string)
| Unreadable (err : string).

Record response : Type := mkHTTPResponse {
  StatusCode : Z;
  Status : string;
  Body : body
}.

(** Go's [error] values are represented by their messages. *)
Inductive result (A : Type) : Type :=
| Ok (a : A)
| Err (e : string).

Arguments Ok {A} a.
Arguments Err {A} e.

(** What the program does not decide: the process environment, whether
    [http.NewRequest] accepts a URL, what the server answers to a request
    (given the requests made before it), and how [httputil] renders
    messages. *)
Record world : Type := mkWorld {
  environ : string -> option string;
  urlError : string -> option string;
  roundTrip : list request -> request -> result response;
  renderRequest : request -> string;
  renderResponse : response -> string -> string
}.

(** What a run does, in order. *)
Inductive event : Type :=
| DoRequest (r : request)     (* http.DefaultClient.Do(r) *)
| Println (line : string)     (* fmt.Println: standard output *)
| Errorf (message : string)   (* log.Errorf *)
| PrintConfig (c : config).   (* stepconf.Print *)

Definition trace : Type := list event.

Fixpoint requests (t : trace) : list request :=
  match t with
  | [] => []
  | DoRequest r :: t' => r :: requests t'
  | _ :: t' => requests t'
  end.

Fixpoint printed (t : trace) : list string :=
  match t with
  | [] => []
  | Println l :: t' => l :: printed t'
  | _ :: t' => printed t'
  end.

(** Computations that extend the trace of the run and return or panic. *)
Definition M (A : Type) : Type := trace -> trace * outcome A.

Definition ret {A : Type} (a : A) : M A := fun t => (t, Returned a).

Definition bind {A B : Type} (c : M A) (k : A -> M B) : M B :=
  fun t =>
    match c t with
    | (t', Returned a) => k a t'
    | (t', Panicked p) => (t', Panicked p)
    end.

Definition emit (e : event) : M unit := fun t => ((t ++ [e])%list, Returned tt).

Definition lift {A : Type} (o : outcome A) : M A := fun t => (t, o).

Definition run {A : Type} (c : M A) : trace * outcome A := c [].

Declare Scope go_scope.
Delimit Scope go_scope with go.
Notation "x <- c ;; k" := (bind c (fun x => k))
  (at level 61, c at next level, right associativity) : go_scope.
Notation "c ;; k" := (bind c (fun _ => k))
  (at level 61, right associativity) : go_scope.
Local Open Scope go_scope.

Definition nl : string := String "010" EmptyString.

Section Program.

Variable w : world.

(** [os.Getenv]: the empty string when the variable is not set. *)
Definition Getenv (k : string) : string :=
  match environ w k with
  | Some v => v
  | None => ""
  end.

Definition getState (preset : string) : string :=
  if negb (preset =? "auto") then preset
  else if Getenv "BITRISE_BUILD_STATUS" =? "0" then "success"
  else "failure".

(** The title-cased state is computed when [desc] is empty, and dropped. *)
Definition getDescription (desc state : string) : string :=
  if desc =? "" then
    let _ := strings.Title (getState state) in desc
  else desc.

(** [httputil.DumpResponse(resp, true)] reads the whole body and fails
    when that fails; afterwards the body can be read again in full.
    [httputil.DumpRequest] reads the in-memory body of the request. *)
Definition DumpResponse (resp : response) : result string :=
  match Body resp with
  | Readable data => Ok (renderResponse w resp data)
  | Unreadable e => Err e
  end.

Definition DumpRequest (req : request) : result string :=
  Ok (renderRequest w req).

Definition httpDump (req : request) (resp : response) : result string :=
  match DumpResponse resp with
  | Err e => Err ("unable to dump response, error: " ++ e)
  | Ok responseStr =>
      match DumpRequest req with
      | Err e => Err ("unable to dump request, error: " ++ e)
      | Ok requestStr =>
          Ok ("Request: " ++ requestStr ++ nl ++ "Response: " ++ responseStr)
      end
  end.

(** [http.NewRequest("POST", url, body)] followed by the [Authorization]
    header. *)
Definition NewRequest (method url : string) (payload : json.value)
  : result request :=
  match urlError w url with
  | Some e => Err e
  | None => Ok (mkRequest method url [] payload)
  end.

Definition Header_Add (req : request) (k v : string) : request :=
  mkRequest (Method req) (URL req) (Header req ++ [(k, v)])%list (Payload req).

(** [http.DefaultClient.Do]: the request is recorded, and answered from
    the requests made so far. *)
Definition Do (req : request) : M (result response) :=
  fun t => ((t ++ [DoRequest req])%list, Returned (roundTrip w (requests t) req)).

Definition ReadAll (b : body) : result string :=
  match b with
  | Readable data => Ok data
  | Unreadable e => Err e
  end.

(** [%d] *)
Definition formatInt (n : Z) : string := NilZero.string_of_int (Z.to_int n).

(** The returned value is the Go [error]: [None] is [nil].  The deferred
    [resp.Body.Close()] only logs when closing fails, which the bodies
    modelled here never do. *)
Definition createDeploymentStatus (cfg : config) (deploymentId : Z)
  : M (option string) :=
  p <- lift (ownerAndRepo (RepositoryURL cfg)) ;;
  let (owner, repo) := p : string * string in
  let url := APIURL cfg ++ "/repos/" ++ owner ++ "/" ++ repo
             ++ "/deployments/" ++ formatInt deploymentId ++ "/statuses" in
  let body := Marshal_deploymentStatusRequest
    {| ds_Environment := "staging";
       ds_Description := getDescription (Description cfg) (State cfg);
       ds_State := getState (State cfg);
       ds_EnvironmentUrl := BuildURL cfg |} in
  match NewRequest "POST" url body with
  | Err e => ret (Some e)
  | Ok req =>
      let req := Header_Add req "Authorization" ("token " ++ AuthToken cfg) in
      r <- Do req ;;
      match r with
      | Err e => ret (Some ("failed to send the request: " ++ e))
      | Ok resp =>
          let rest : M (option string) :=
            if negb (StatusCode resp =? 201)%Z then
              ret (Some ("server error, unexpected status code: " ++ Status resp))
            else ret None in
          if negb (StatusCode resp =? 201)%Z || Verbose cfg then
            match httpDump req resp with
            | Err e => ret (Some e)
            | Ok d => emit (Println d) ;; rest
            end
          else rest
      end
  end.

Definition createDeployment (cfg : config) : M (option string) :=
  p <- lift (ownerAndRepo (RepositoryURL cfg)) ;;
  let (owner, repo) := p : string * string in
  let url := APIURL cfg ++ "/repos/" ++ owner ++ "/" ++ repo ++ "/deployments" in
  let body := Marshal_deploymentRequest
    {| dr_Ref := CommitHash cfg;
       dr_Environment := "staging";
       dr_Description := getDescription (Description cfg) (State cfg);
       dr_RequiredContexts := Some [];
       dr_State := "";
       dr_TargetURL := "";
       dr_Context := "" |} in
  match NewRequest "POST" url body with
  | Err e => ret (Some e)
  | Ok req =>
      let req := Header_Add req "Authorization" ("token " ++ AuthToken cfg) in
      r <- Do req ;;
      match r with
      | Err e => ret (Some ("failed to send the request: " ++ e))
      | Ok resp =>
          let rest : M (option string) :=
            if negb (StatusCode resp =? 201)%Z then
              ret (Some ("server error, unexpected status code: " ++ Status resp))
            else
              match ReadAll (Body resp) with
              | Err _ =>
                  (* panic(err.Error()): err is the nil error left by Do,
                     not err2 *)
                  lift (Panicked NilDereference)
              | Ok data =>
                  (* the error returned by Unmarshal is not looked at *)
                  let response := fst (Unmarshal data zeroResponse) in
                  let deploymentId := Id response in
                  emit (Println ("deployment id " ++ formatInt deploymentId)) ;;
                  createDeploymentStatus cfg deploymentId
              end in
          if negb (StatusCode resp =? 201)%Z || Verbose cfg then
            match httpDump req resp with
            | Err e => ret (Some e)
            | Ok d => emit (Println d) ;; rest
            end
          else rest
      end
  end.

(** How the process ends. *)
Inductive termination : Type :=
| Exit (code : Z)        (* os.Exit(code) *)
| Return                 (* main returns *)
| Crash (p : panic).     (* main panics *)

Definition exitCode (t : termination) : Z :=
  match t with
  | Exit code => code
  | Return => 0
  | Crash _ => 2
  end.

(** [main], given what [stepconf.Parse] made of the environment. *)
Definition main (parsed : result config) : trace * termination :=
  match parsed with
  | Err e => ([Errorf ("Error: " ++ e ++ nl)], Exit 1)
  | Ok cfg =>
      match run (emit (PrintConfig cfg) ;; createDeployment cfg) with
      | (t, Panicked p) => (t, Crash p)
      | (t, Returned (Some e)) =>
          ((t ++ [Errorf ("Error: " ++ e ++ nl)])%list, Exit 1)
      | (t, Returned None) => (t, Return)
      end
  end.

End Program.

(** ** Vocabulary of the statements *)

(** [contains c s]: the byte [c] occurs in [s]. *)
Fixpoint contains (c : ascii) (s : string) : bool :=
  match s with
  | EmptyString => false
  | String c' s' => (c' =? c)%char || contains c s'
  end.

(** No byte of [s] is a separator of the URL parser. *)
Fixpoint noSep (s : string) : Prop :=
  match s with
  | EmptyString => True
  | String c s' => isURLSeparator c = false /\ noSep s'
  end.

(** [hasSubstring sub s]: [sub] occurs in [s]. *)
Fixpoint hasSubstring (sub s : string) : bool :=
  prefix sub s
  || match s with
     | EmptyString => false
     | String _ s' => hasSubstring sub s'
     end.

(** The requests the two calls build for an owner and a repository. *)
Definition deploymentsURL (cfg : config) (owner repo : string) : string :=
  APIURL cfg ++ "/repos/" ++ owner ++ "/" ++ repo ++ "/deployments".

Definition statusesURL (cfg : config) (owner repo : string) (id : Z) : string :=
  APIURL cfg ++ "/repos/" ++ owner ++ "/" ++ repo
  ++ "/deployments/" ++ formatInt id ++ "/statuses".

Definition authorization (cfg : config) : list (string * string) :=
  [("Authorization", "token " ++ AuthToken cfg)].

Definition deploymentCall (w : world) (cfg : config) (owner repo : string) : request :=
  mkRequest "POST" (deploymentsURL cfg owner repo) (authorization cfg)
    (Marshal_deploymentRequest
       (mkDeploymentRequest (Some []) (CommitHash cfg) "staging" "" ""
          (getDescription w (Description cfg) (State cfg)) "")).

Definition statusCall (w : world) (cfg : config) (owner repo : string) (id : Z)
  : request :=
  mkRequest "POST" (statusesURL cfg owner repo id) (authorization cfg)
    (Marshal_deploymentStatusRequest
       (mkDeploymentStatusRequest (BuildURL cfg) "staging" (getState w (State cfg))
          (getDescription w (Description cfg) (State cfg)))).

(** The text [httpDump] returns for a response whose body reads [data]. *)
Definition dumpText (w : world) (req : request) (resp : response) (data : string)
  : string :=
  "Request: " ++ renderRequest w req ++ nl
  ++ "Response: " ++ renderResponse w resp data.

(** The dump block of the two calls on its own (lines 122-128 and
    189-195): [Some] error when the call returns at once. *)
Definition dumpIfNeeded (w : world) (cfg : config) (req : request) (resp : response)
  : M (option string) :=
  if negb (StatusCode resp =? 201)%Z || Verbose cfg then
    match httpDump w req resp with
    | Err e => ret (Some e)
    | Ok d => emit (Println d) ;; ret None
    end
  else ret None.



(** *** Sample worlds *)

Definition sampleConfig : config :=
  {| AuthToken := "secret";
     RepositoryURL := "git@github.com:acme/widgets.git";
     CommitHash := "abc123";
     APIURL := "https://api.github.com";
     State := "success";
     BuildURL := "https://ci.example/build/7";
     StatusIdentifier := "";
     Description := "";
     Verbose := false |}.

(** A server that answers every request with the same response. *)
Definition constantWorld (resp : response) : world :=
  {| environ := fun _ => None;
     urlError := fun _ => None;
     roundTrip := fun _ _ => Ok resp;
     renderRequest := fun r => Method r ++ " " ++ URL r;
     renderResponse := fun r data => Status r ++ nl ++ data |}.

(** A server that answers the first request with [first] and the later
    ones with [later]. *)
Definition scriptedWorld (env : string -> option string) (first later : response)
  : world :=
  {| environ := env;
     urlError := fun _ => None;
     roundTrip := fun before _ =>
       match before with
       | [] => Ok first
       | _ => Ok later
       end;
     renderRequest := fun r => Method r ++ " " ++ URL r;
     renderResponse := fun r data => Status r ++ nl ++ data |}.

Definition created (data : string) : response :=
  {| StatusCode := 201; Status := "201 Created"; Body := Readable data |}.

Definition buildStatus (v : option string) (k : string) : option string :=
  if k =? "BITRISE_BUILD_STATUS" then v else None.

(** The body of the successful response in the chaining scenario. *)
Definition createdBody : string := withQuotes "{'id': 42, 'url': 'https://x/42'}".

Definition unreadable : response :=
  {| StatusCode := 201; Status := "201 Created"; Body := Unreadable "unexpected EOF" |}.


Definition unprocessable : response :=
  {| StatusCode := 422;
     Status := "422 Unprocessable Entity";
     Body := Readable "{}" |}.


(** *** Shapes of URLs *)

(** No byte of [s] is ['/'] or [':']. *)
Fixpoint noSeparator (s : string) : bool :=
  match s with
  | EmptyString => true
  | String c s' => negb (isURLSeparator c) && noSeparator s'
  end.

(** Every byte of [s] is ['/'] or [':']. *)
Fixpoint onlySeparators (s : string) : bool :=
  match s with
  | EmptyString => true
  | String c s' => isURLSeparator c && onlySeparators s'
  end.

(** What may follow a field: nothing, or text that starts with a
    separator. *)
Definition endsField (tail : string) : bool :=
  match tail with
  | EmptyString => true
  | String c _ => isURLSeparator c
  end.

(** *** Identifiers *)

(** The identifier [createDeployment] takes from a body. *)
Definition deploymentIdOf (data : string) : Z := Id (fst (Unmarshal data zeroResponse)).

(** A body that holds the identifier [n] and nothing else. *)
Definition idBody (n : Z) : string := withQuotes "{'id':" ++ formatInt n ++ "}".

(** The values the configuration admits for the state. *)
Definition presets : list string := ["auto"; "pending"; "success"; "error"; "failure"].

(** The states a deployment status can take. *)
Definition states : list string := ["pending"; "success"; "error"; "failure"].

(** *** More sample worlds *)

(** No connection: every request fails to be sent. *)
Definition offlineWorld : world :=
  {| environ := fun _ => None;
     urlError := fun _ => None;
     roundTrip := fun _ _ => Err "dial tcp: i/o timeout";
     renderRequest := fun r => Method r ++ " " ++ URL r;
     renderResponse := fun r data => Status r ++ nl ++ data |}.

(** [http.NewRequest] accepts no URL. *)
Definition strictWorld : world :=
  {| environ := fun _ => None;
     urlError := fun _ => Some "net/url: invalid control character in URL";
     roundTrip := fun _ _ => Ok (created "");
     renderRequest := fun r => Method r ++ " " ++ URL r;
     renderResponse := fun r data => Status r ++ nl ++ data |}.

Definition shortURLConfig : config :=
  {| AuthToken := "secret";
     RepositoryURL := "https://github.com/acme";
     CommitHash := "abc123";
     APIURL := "https://api.github.com";
     State := "auto";
     BuildURL := "";
     StatusIdentifier := "";
     Description := "";
     Verbose := false |}.

Definition verboseSampleConfig : config :=
  {| AuthToken := "secret";
     RepositoryURL := "git@github.com:acme/widgets.git";
     CommitHash := "abc123";
     APIURL := "https://api.github.com";
     State := "success";
     BuildURL := "https://ci.example/build/7";
     StatusIdentifier := "";
     Description := "";
     Verbose := true |}.

(** *** Decimal digits *)

(** The number a run of decimal digits denotes, most significant digit
    first, continuing from [acc]. *)
Fixpoint horner (acc : Z) (d : Decimal.uint) : Z :=
  match d with
  | Decimal.Nil => acc
  | Decimal.D0 l => horner (10 * acc + 0) l
  | Decimal.D1 l => horner (10 * acc + 1) l
  | Decimal.D2 l => horner (10 * acc + 2) l
  | Decimal.D3 l => horner (10 * acc + 3) l
  | Decimal.D4 l => horner (10 * acc + 4) l
  | Decimal.D5 l => horner (10 * acc + 5) l
  | Decimal.D6 l => horner (10 * acc + 6) l
  | Decimal.D7 l => horner (10 * acc + 7) l
  | Decimal.D8 l => horner (10 * acc + 8) l
  | Decimal.D9 l => horner (10 * acc + 9) l
  end.

(** The first digit is not zero. *)
Definition leadingDigit (d : Decimal.uint) : bool :=
  match d with
  | Decimal.Nil | Decimal.D0 _ => false
  | _ => true
  end.

(** * Properties *)

(** ** Strings *)

Section StringFacts.

Lemma append_assoc (a b c : string) : (a ++ b) ++ c = a ++ (b ++ c).
Proof. induction a as [|x a IH]; simpl; [reflexivity | now rewrite IH]. Qed.

Lemma append_empty_r (a : string) : a ++ "" = a.
Proof. induction a as [|x a IH]; simpl; [reflexivity | now rewrite IH]. Qed.

Lemma length_append (a b : string) :
  String.length (a ++ b) = String.length a + String.length b.
Proof. induction a as [|x a IH]; simpl; [reflexivity | now rewrite IH]. Qed.

Lemma substring_all (s : string) : substring 0 (String.length s) s = s.
Proof. induction s as [|x s IH]; simpl; [reflexivity | now rewrite IH]. Qed.

Lemma substring_head (a b : string) : substring 0 (String.length a) (a ++ b) = a.
Proof.
  induction a as [|x a IH]; simpl.
  - now destruct b.
  - now rewrite IH.
Qed.

Lemma substring_tail (a b : string) (n : nat) :
  substring (String.length a) n (a ++ b) = substring 0 n b.
Proof. induction a as [|x a IH]; simpl; [reflexivity | exact IH]. Qed.

Lemma substring_split (s : string) (n : nat) :
  n <= String.length s ->
  s = substring 0 n s ++ substring n (String.length s - n) s.
Proof.
  revert n; induction s as [|x s IH]; intros n Hn; simpl in *.
  - assert (n = 0) by lia; subst; reflexivity.
  - destruct n as [|n]; simpl.
    + now rewrite substring_all.
    + rewrite <- IH by lia; reflexivity.
Qed.

Lemma HasPrefix_app (p r : string) : strings.HasPrefix (p ++ r) p = true.
Proof.
  unfold strings.HasPrefix, strings.slice.
  rewrite length_append, Nat.sub_0_r, substring_head, String.eqb_refl.
  rewrite andb_true_r; apply Nat.leb_le; lia.
Qed.

Lemma TrimPrefix_app (p r : string) : strings.TrimPrefix (p ++ r) p = r.
Proof.
  unfold strings.TrimPrefix; rewrite HasPrefix_app.
  unfold strings.slice; rewrite length_append, substring_tail.
  replace (String.length p + String.length r - String.length p)
    with (String.length r) by lia.
  apply substring_all.
Qed.

Lemma HasPrefix_inv (s p : string) :
  strings.HasPrefix s p = true -> s = p ++ strings.TrimPrefix s p.
Proof.
  intros H; unfold strings.TrimPrefix; rewrite H.
  unfold strings.HasPrefix, strings.slice in *.
  apply andb_true_iff in H as [Hl He].
  apply Nat.leb_le in Hl; apply String.eqb_eq in He.
  rewrite Nat.sub_0_r in He.
  rewrite <- He at 1; apply substring_split; exact Hl.
Qed.

(** [TrimPrefix] removes [p] when [s] starts with it and else returns [s]. *)
Lemma TrimPrefix_cases (s p : string) :
  (exists r, s = p ++ r /\ strings.TrimPrefix s p = r)
  \/ ((forall r, s <> p ++ r) /\ strings.TrimPrefix s p = s).
Proof.
  destruct (strings.HasPrefix s p) eqn:H.
  - left; exists (strings.TrimPrefix s p); split; [now apply HasPrefix_inv | reflexivity].
  - right; split.
    + intros r ->; now rewrite HasPrefix_app in H.
    + unfold strings.TrimPrefix; now rewrite H.
Qed.

Lemma TrimSuffix_app (r suffix : string) : strings.TrimSuffix (r ++ suffix) suffix = r.
Proof.
  unfold strings.TrimSuffix, strings.HasSuffix, strings.slice.
  rewrite length_append.
  replace (String.length r + String.length suffix - String.length suffix)
    with (String.length r) by lia.
  replace (String.length r + String.length suffix - String.length r)
    with (String.length suffix) by lia.
  rewrite substring_tail, substring_all, String.eqb_refl, Nat.sub_0_r, substring_head.
  replace (String.length suffix <=? String.length r + String.length suffix)%nat
    with true by (symmetry; apply Nat.leb_le; lia).
  reflexivity.
Qed.

End StringFacts.

(** ** Fields of a URL *)

Section Fields.

Lemma noSep_app (a b : string) : noSep a -> noSep b -> noSep (a ++ b).
Proof. induction a as [|x a IH]; simpl; intuition. Qed.

Lemma noSep_app_r (a b : string) : noSep (a ++ b) -> noSep b.
Proof. induction a as [|x a IH]; simpl; intuition. Qed.

Lemma contains_noSep (s : string) :
  contains "/" s = false -> contains ":" s = false -> noSep s.
Proof.
  induction s as [|x s IH]; simpl; [trivial|].
  intros H1 H2.
  apply orb_false_iff in H1 as [H1 H1'], H2 as [H2 H2'].
  split; [|now apply IH].
  unfold isURLSeparator; now rewrite H1, H2.
Qed.

Lemma separator_cases (d : ascii) :
  isURLSeparator d = true -> d = "/"%char \/ d = ":"%char.
Proof.
  unfold isURLSeparator; intros H.
  apply orb_true_iff in H as [H|H]; apply Ascii.eqb_eq in H; auto.
Qed.

(** An open field swallows a word without separators. *)
Lemma loop_word (w pre rest : string) :
  noSep w ->
  strings.FieldsFunc_loop isURLSeparator (w ++ rest) (Some pre)
  = strings.FieldsFunc_loop isURLSeparator rest (Some (pre ++ w)).
Proof.
  revert pre; induction w as [|x w IH]; intros pre Hw; simpl in *.
  - now rewrite append_empty_r.
  - destruct Hw as [Hx Hw]; rewrite Hx, IH by exact Hw.
    now rewrite append_assoc.
Qed.

Lemma loop_first_word (w rest : string) :
  w <> "" -> noSep w ->
  strings.FieldsFunc_loop isURLSeparator (w ++ rest) None
  = strings.FieldsFunc_loop isURLSeparator rest (Some w).
Proof.
  destruct w as [|x w]; [congruence|]; intros _ [Hx Hw]; simpl.
  rewrite Hx; now rewrite loop_word.
Qed.

(** A host, an owner and a repository part, each without separators and
    not empty, are the three fields of their concatenation. *)
Lemma three_fields (h o x : string) (d1 d2 : ascii) :
  h <> "" -> o <> "" -> x <> "" -> noSep h -> noSep o -> noSep x ->
  isURLSeparator d1 = true -> isURLSeparator d2 = true ->
  strings.FieldsFunc (h ++ String d1 (o ++ String d2 x)) isURLSeparator = [h; o; x].
Proof.
  intros Hh Ho Hx Nh No Nx D1 D2; unfold strings.FieldsFunc.
  rewrite loop_first_word by assumption; simpl; rewrite D1.
  rewrite loop_first_word by assumption; simpl; rewrite D2.
  rewrite <- (append_empty_r x) at 1.
  now rewrite loop_first_word by assumption.
Qed.

(** The first separator of a string splits it in one way only. *)
Lemma first_separator_unique (w1 w2 y1 y2 : string) (d1 d2 : ascii) :
  noSep w1 -> noSep w2 ->
  isURLSeparator d1 = true -> isURLSeparator d2 = true ->
  w1 ++ String d1 y1 = w2 ++ String d2 y2 ->
  w1 = w2 /\ d1 = d2 /\ y1 = y2.
Proof.
  revert w2; induction w1 as [|a w1 IH]; intros [|b w2] N1 N2 D1 D2 E;
    simpl in *; inversion E; subst.
  - auto.
  - destruct N2 as [N2 _]; congruence.
  - destruct N1 as [N1 _]; congruence.
  - destruct N1 as [_ N1], N2 as [_ N2].
    destruct (IH w2 N1 N2 D1 D2 H1) as (-> & -> & ->); auto.
Qed.

(** A prefix without separators of [h ++ d ++ y], where [d] is the first
    separator, is a prefix of [h]. *)
Lemma prefix_before_separator (p h y r : string) (d : ascii) :
  noSep p -> isURLSeparator d = true ->
  h ++ String d y = p ++ r ->
  exists h', h = p ++ h' /\ r = h' ++ String d y.
Proof.
  revert h; induction p as [|a p IH]; intros h Np D E; simpl in *.
  - exists h; auto.
  - destruct Np as [Na Np]; destruct h as [|b h]; simpl in E; inversion E; subst.
    + congruence.
    + destruct (IH h Np D H1) as (h' & -> & ->); exists h'; auto.
Qed.

(** Removing ["git@"] in front of a first field leaves the field or its
    remainder after ["git@"]. *)
Lemma TrimPrefix_git (h y : string) (d : ascii) :
  isURLSeparator d = true ->
  exists h',
    strings.TrimPrefix (h ++ String d y) "git@" = h' ++ String d y
    /\ (h = h' \/ h = "git@" ++ h').
Proof.
  intros D.
  destruct (TrimPrefix_cases (h ++ String d y) "git@") as [(r & E & ->)|[_ ->]].
  - apply prefix_before_separator in E as (h' & -> & ->); auto.
    + exists h'; auto.
    + simpl; intuition.
  - exists h; auto.
Qed.

(** The parser on a URL that, after the ["https://"] prefix is gone, reads
    first field, separator, owner, separator, repository and [".git"]. *)
Lemma ownerAndRepo_fields (url h o r : string) (d1 d2 : ascii) :
  strings.TrimPrefix url "https://" = h ++ String d1 (o ++ String d2 (r ++ ".git")) ->
  h <> "" -> h <> "git@" -> o <> "" -> noSep h -> noSep o -> noSep r ->
  isURLSeparator d1 = true -> isURLSeparator d2 = true ->
  ownerAndRepo url = Returned (o, r).
Proof.
  intros E Hh Hg Ho Nh No Nr D1 D2.
  unfold ownerAndRepo, urlFields; rewrite E.
  destruct (TrimPrefix_git h (o ++ String d2 (r ++ ".git")) d1 D1) as (h' & -> & Hh').
  assert (Hx : r ++ ".git" <> "") by (destruct r; discriminate).
  assert (Nx : noSep (r ++ ".git")) by (apply noSep_app; simpl; intuition).
  assert (Hh'' : h' <> "").
  { destruct Hh' as [->| ->]; [assumption|].
    intros ->; apply Hg; reflexivity. }
  assert (Nh' : noSep h').
  { destruct Hh' as [->| ->]; [assumption|]. now apply noSep_app_r in Nh. }
  rewrite three_fields by assumption.
  simpl; now rewrite TrimSuffix_app.
Qed.

End Fields.

(** ** The repository URL parser *)

(** Fewer than three fields: one of the two index expressions panics. *)
Lemma ownerAndRepo_short (url : string) :
  List.length (urlFields url) < 3 ->
  exists i, i < 3
    /\ ownerAndRepo url = Panicked (IndexOutOfRange i (List.length (urlFields url))).
Proof.
  unfold ownerAndRepo; intros H.
  destruct (urlFields url) as [|a [|b [|c l]]]; simpl in *; try lia.
  - exists 1; auto.
  - exists 1; auto.
  - exists 2; auto.
Qed.


(** C5 (as stated) fails for the host ["git@"]: once ["https://"] is
    removed the URL starts with ["git@"], which is removed too, and only
    two segments are left. *)
Lemma ownerAndRepo_https_host_git_at :
  ownerAndRepo "https://git@/acme/widgets.git" = Panicked (IndexOutOfRange 2 2)
  /\ ~ (forall host owner repo : string,
          host <> "" -> owner <> "" -> repo <> "" ->
          contains "/" host = false -> contains ":" host = false ->
          contains "/" owner = false -> contains ":" owner = false ->
          contains "/" repo = false -> contains ":" repo = false ->
          ownerAndRepo ("https://" ++ host ++ "/" ++ owner ++ "/" ++ repo ++ ".git")
          = Returned (owner, repo)).
Proof.
  split; [reflexivity|].
  intros H.
  specialize (H "git@" "acme" "widgets").
  simpl in H.
  assert (E : ownerAndRepo "https://git@/acme/widgets.git"
              = Returned ("acme", "widgets"))
    by (apply H; (discriminate || reflexivity)).
  vm_compute in E; discriminate.
Qed.

(** C5 (amended): for every URL [https://host/OWNER/REPO.git] whose host,
    owner and repository are not empty and contain neither ['/'] nor
    [':'], and whose host is not ["git@"], the parser returns exactly
    (OWNER, REPO), without the [.git] suffix. *)
Theorem ownerAndRepo_https_form (host owner repo : string) :
  host <> "" -> owner <> "" -> repo <> "" ->
  contains "/" host = false -> contains ":" host = false ->
  contains "/" owner = false -> contains ":" owner = false ->
  contains "/" repo = false -> contains ":" repo = false ->
  host <> "git@" ->
  ownerAndRepo ("https://" ++ host ++ "/" ++ owner ++ "/" ++ repo ++ ".git")
  = Returned (owner, repo).
Proof.
  intros Hh Ho Hr H1 H2 O1 O2 R1 R2 Hg.
  apply (ownerAndRepo_fields _ host owner repo "/" "/"); auto using contains_noSep.
  apply TrimPrefix_app.
Qed.

Lemma ownerAndRepo_https_form_witness :
  ownerAndRepo "https://github.com/acme/widgets.git" = Returned ("acme", "widgets").
Proof.
  apply (ownerAndRepo_https_form "github.com" "acme" "widgets");
    (discriminate || reflexivity).
Defined.

(** A user name, ["@"] and a host, neither of them empty, never spell
    ["git@"]. *)
Lemma user_at_host_not_git_at (user host : string) :
  user <> "" -> host <> "" -> user ++ String "@" host <> "git@".
Proof.
  intros Hu Hh E.
  destruct user as [|a [|b [|c [|d u]]]]; simpl in E; try congruence;
    inversion E; subst; try congruence.
  destruct u; discriminate.
Qed.

(** C6: for every URL [user@host:OWNER/REPO.git] whose user, host, owner
    and repository are not empty and contain neither ['/'] nor [':'], the
    parser returns exactly (OWNER, REPO), whatever the user name is. *)
Theorem ownerAndRepo_ssh_form (user host owner repo : string) :
  user <> "" -> host <> "" -> owner <> "" -> repo <> "" ->
  contains "/" user = false -> contains ":" user = false ->
  contains "/" host = false -> contains ":" host = false ->
  contains "/" owner = false -> contains ":" owner = false ->
  contains "/" repo = false -> contains ":" repo = false ->
  ownerAndRepo (user ++ "@" ++ host ++ ":" ++ owner ++ "/" ++ repo ++ ".git")
  = Returned (owner, repo).
Proof.
  intros Hu Hh Ho Hr U1 U2 H1 H2 O1 O2 R1 R2.
  pose proof (contains_noSep _ U1 U2) as Nu.
  pose proof (contains_noSep _ H1 H2) as Nh.
  pose proof (contains_noSep _ O1 O2) as No.
  pose proof (contains_noSep _ R1 R2) as Nr.
  set (y := owner ++ String "/" (repo ++ ".git")).
  assert (Nw : noSep (user ++ String "@" host))
    by (apply noSep_app; simpl; auto).
  assert (E : user ++ "@" ++ host ++ ":" ++ owner ++ "/" ++ repo ++ ".git"
              = (user ++ String "@" host) ++ String ":" y)
    by (rewrite append_assoc; reflexivity).
  rewrite E.
  apply (ownerAndRepo_fields _ (user ++ String "@" host) owner repo ":" "/"); auto.
  - destruct (TrimPrefix_cases ((user ++ String "@" host) ++ String ":" y) "https://")
      as [(r & Er & _)|[_ ->]]; [exfalso|reflexivity].
    assert (Er' : (user ++ String "@" host) ++ String ":" y
                  = "https" ++ String ":" (String "/" (String "/" r))) by exact Er.
    apply first_separator_unique in Er' as (_ & _ & Ey); auto; [|simpl; intuition].
    unfold y in Ey; destruct owner as [|c o]; [congruence|].
    simpl in Ey, No; inversion Ey; subst; destruct No as [No _]; discriminate.
  - destruct user; [congruence | discriminate].
  - now apply user_at_host_not_git_at.
Qed.

Lemma ownerAndRepo_ssh_form_witness :
  ownerAndRepo "git@github.com:acme/widgets.git" = Returned ("acme", "widgets")
  /\ ownerAndRepo "deploy@example.org:acme/widgets.git" = Returned ("acme", "widgets").
Proof.
  split.
  - apply (ownerAndRepo_ssh_form "git" "github.com" "acme" "widgets");
      (discriminate || reflexivity).
  - apply (ownerAndRepo_ssh_form "deploy" "example.org" "acme" "widgets");
      (discriminate || reflexivity).
Defined.

(** ** State and description *)

Section Resolver.

Variable w : world.

(** C7: every preset other than ["auto"] is returned unchanged; for
    ["auto"] the result is ["success"] exactly when the build status
    variable holds ["0"], and ["failure"] for every other value and when
    the variable is not set. *)
Theorem getState_spec (preset : string) :
  (preset <> "auto" -> getState w preset = preset)
  /\ (preset = "auto" ->
      (getState w preset = "success" <-> environ w "BITRISE_BUILD_STATUS" = Some "0")
      /\ (environ w "BITRISE_BUILD_STATUS" <> Some "0" -> getState w preset = "failure")
      /\ (environ w "BITRISE_BUILD_STATUS" = None -> getState w preset = "failure")).
Proof.
  unfold getState, Getenv; split.
  - intros H; apply String.eqb_neq in H; now rewrite H.
  - intros ->; simpl.
    destruct (environ w "BITRISE_BUILD_STATUS") as [v|] eqn:E.
    + destruct (String.eqb_spec v "0") as [->|Hv].
      * repeat split; congruence.
      * repeat split; intros; try reflexivity; try discriminate; congruence.
    + simpl; repeat split; congruence.
Qed.


End Resolver.

Lemma getState_spec_witness :
  getState (constantWorld (created "")) "pending" = "pending"
  /\ getState (scriptedWorld (buildStatus (Some "0")) (created "") (created "")) "auto"
     = "success"
  /\ getState (scriptedWorld (buildStatus (Some "1")) (created "") (created "")) "auto"
     = "failure"
  /\ getState (constantWorld (created "")) "auto" = "failure".
Proof.
  split; [|split; [|split]].
  - apply (proj1 (getState_spec (constantWorld (created "")) "pending")).
    discriminate.
  - apply (proj1 (proj2 (getState_spec
                    (scriptedWorld (buildStatus (Some "0")) (created "") (created ""))
                    "auto") eq_refl)).
    reflexivity.
  - apply (proj1 (proj2 (proj2 (getState_spec
                    (scriptedWorld (buildStatus (Some "1")) (created "") (created ""))
                    "auto") eq_refl))).
    simpl; discriminate.
  - apply (proj2 (proj2 (proj2 (getState_spec (constantWorld (created "")) "auto")
                    eq_refl))).
    reflexivity.
Defined.

(** C2: for the empty description the claim asks for the title-cased
    state, ["Success"] for ["success"] and ["Failure"] for ["failure"];
    [getDescription] returns the empty string instead. *)
Theorem getDescription_empty_drops_title :
  let w := constantWorld (created "") in
  strings.Title (getState w "success") = "Success"
  /\ getDescription w "" "success" = ""
  /\ strings.Title (getState w "auto") = "Failure"
  /\ getDescription w "" "auto" = ""
  /\ getDescription w "" "success" <> strings.Title (getState w "success").
Proof. repeat split; discriminate. Qed.

(** ** The two calls *)

Section Calls.

Variable w : world.
Variable cfg : config.

Lemma requests_app (t1 t2 : trace) :
  requests (t1 ++ t2)%list = (requests t1 ++ requests t2)%list.
Proof.
  induction t1 as [|e t1 IH]; simpl; [reflexivity|].
  destruct e; simpl; now rewrite IH.
Qed.


(** The dump block: what it appends to the trace and what it hands on. *)
Lemma dumpIfNeeded_run (req : request) (resp : response) (t : trace) :
  dumpIfNeeded w cfg req resp t =
  if negb (StatusCode resp =? 201)%Z || Verbose cfg then
    match Body resp with
    | Readable data =>
        ((t ++ [Println (dumpText w req resp data)])%list, Returned None)
    | Unreadable e =>
        (t, Returned (Some ("unable to dump response, error: " ++ e)))
    end
  else (t, Returned None).
Proof.
  unfold dumpIfNeeded, httpDump, DumpResponse, DumpRequest.
  destruct (negb (StatusCode resp =? 201)%Z || Verbose cfg); [|reflexivity].
  destruct (Body resp); reflexivity.
Qed.

(** [createDeploymentStatus] once its request is answered by [resp]. *)
Lemma createDeploymentStatus_run (owner repo : string) (id : Z) (resp : response)
  (t : trace) :
  ownerAndRepo (RepositoryURL cfg) = Returned (owner, repo) ->
  urlError w (statusesURL cfg owner repo id) = None ->
  roundTrip w (requests t) (statusCall w cfg owner repo id) = Ok resp ->
  createDeploymentStatus w cfg id t =
  match dumpIfNeeded w cfg (statusCall w cfg owner repo id) resp
          (t ++ [DoRequest (statusCall w cfg owner repo id)])%list with
  | (t', Returned (Some e)) => (t', Returned (Some e))
  | (t', Returned None) =>
      if negb (StatusCode resp =? 201)%Z then
        (t', Returned (Some ("server error, unexpected status code: " ++ Status resp)))
      else (t', Returned None)
  | (t', Panicked p) => (t', Panicked p)
  end.
Proof.
  intros Ho Hu Hr.
  unfold createDeploymentStatus, bind, lift, NewRequest, Do, ret.
  rewrite Ho.
  fold (statusesURL cfg owner repo id); rewrite Hu.
  unfold Header_Add; cbn [Method URL Header Payload List.app].
  fold (authorization cfg).
  change (mkRequest "POST" (statusesURL cfg owner repo id) (authorization cfg) _)
    with (statusCall w cfg owner repo id).
  rewrite Hr.
  unfold dumpIfNeeded, httpDump, DumpResponse, DumpRequest, bind, emit, ret.
  destruct (negb (StatusCode resp =? 201)%Z || Verbose cfg);
    [destruct (Body resp)|];
    destruct (negb (StatusCode resp =? 201)%Z); reflexivity.
Qed.

(** Whatever the answer, [createDeploymentStatus] makes one request, to
    the statuses URL of [id]. *)
Lemma createDeploymentStatus_requests (owner repo : string) (id : Z) (t : trace) :
  ownerAndRepo (RepositoryURL cfg) = Returned (owner, repo) ->
  urlError w (statusesURL cfg owner repo id) = None ->
  requests (fst (createDeploymentStatus w cfg id t))
  = (requests t ++ [statusCall w cfg owner repo id])%list.
Proof.
  intros Ho Hu.
  destruct (roundTrip w (requests t) (statusCall w cfg owner repo id)) as [resp|e] eqn:Hr.
  - rewrite (createDeploymentStatus_run owner repo id resp t Ho Hu Hr).
    rewrite dumpIfNeeded_run.
    destruct (negb (StatusCode resp =? 201)%Z || Verbose cfg);
      [destruct (Body resp)|];
      destruct (negb (StatusCode resp =? 201)%Z); simpl;
      rewrite ?requests_app; simpl; rewrite ?requests_app; simpl;
      rewrite ?app_nil_r; reflexivity.
  - unfold createDeploymentStatus, bind, lift, NewRequest, Do, ret.
    rewrite Ho.
    fold (statusesURL cfg owner repo id); rewrite Hu.
    unfold Header_Add; cbn [Method URL Header Payload List.app].
    fold (authorization cfg).
    change (mkRequest "POST" (statusesURL cfg owner repo id) (authorization cfg) _)
      with (statusCall w cfg owner repo id).
    rewrite Hr; simpl; rewrite requests_app; reflexivity.
Qed.

(** [createDeployment] once its request is answered by [resp]. *)
Lemma createDeployment_run (owner repo : string) (resp : response) (t : trace) :
  ownerAndRepo (RepositoryURL cfg) = Returned (owner, repo) ->
  urlError w (deploymentsURL cfg owner repo) = None ->
  roundTrip w (requests t) (deploymentCall w cfg owner repo) = Ok resp ->
  createDeployment w cfg t =
  match dumpIfNeeded w cfg (deploymentCall w cfg owner repo) resp
          (t ++ [DoRequest (deploymentCall w cfg owner repo)])%list with
  | (t', Returned (Some e)) => (t', Returned (Some e))
  | (t', Returned None) =>
      if negb (StatusCode resp =? 201)%Z then
        (t', Returned (Some ("server error, unexpected status code: " ++ Status resp)))
      else
        match Body resp with
        | Unreadable _ => (t', Panicked NilDereference)
        | Readable data =>
            let id := Id (fst (Unmarshal data zeroResponse)) in
            createDeploymentStatus w cfg id
              (t' ++ [Println ("deployment id " ++ formatInt id)])%list
        end
  | (t', Panicked p) => (t', Panicked p)
  end.
Proof.
  intros Ho Hu Hr.
  unfold createDeployment, bind, lift, NewRequest, Do, ret, emit.
  rewrite Ho.
  fold (deploymentsURL cfg owner repo); rewrite Hu.
  unfold Header_Add; cbn [Method URL Header Payload List.app].
  fold (authorization cfg).
  change (mkRequest "POST" (deploymentsURL cfg owner repo) (authorization cfg) _)
    with (deploymentCall w cfg owner repo).
  rewrite Hr.
  unfold dumpIfNeeded, httpDump, DumpResponse, DumpRequest, ReadAll, bind, emit, ret, lift.
  destruct (negb (StatusCode resp =? 201)%Z || Verbose cfg);
    destruct (Body resp);
    destruct (negb (StatusCode resp =? 201)%Z); reflexivity.
Qed.

End Calls.

(** ** Chaining the two calls *)

Section Chaining.

Variable w : world.
Variable cfg : config.

Lemma prefix_app (p r : string) : prefix p (p ++ r) = true.
Proof.
  induction p as [|a p IH]; simpl; [now destruct r|].
  destruct (ascii_dec a a); [exact IH | congruence].
Qed.

Lemma hasSubstring_prefix (sub s : string) :
  prefix sub s = true -> hasSubstring sub s = true.
Proof. intros H; destruct s; simpl; simpl in H; rewrite H; reflexivity. Qed.

Lemma hasSubstring_here (sub r : string) : hasSubstring sub (sub ++ r) = true.
Proof. apply hasSubstring_prefix, prefix_app. Qed.

Lemma hasSubstring_app_r (sub a b : string) :
  hasSubstring sub b = true -> hasSubstring sub (a ++ b) = true.
Proof.
  intros H; induction a as [|x a IH]; simpl; [exact H|].
  rewrite IH; apply orb_true_r.
Qed.

Lemma Unmarshal_createdBody :
  Unmarshal createdBody zeroResponse = ({| Id := 42; Url := "https://x/42" |}, None).
Proof. vm_compute; reflexivity. Qed.

(** C3: when the deployment-creation call is answered 201 with the body
    [{"id": 42, "url": "https://x/42"}], a second request is made, and its
    URL is [{api_base}/repos/{owner}/{repo}/deployments/42/statuses]: the
    identifier comes from the body of the first answer.  The premises say
    that the first call took place (the repository URL has an owner and
    a repository, and [http.NewRequest] accepts the deployments URL) and
    that [http.NewRequest] accepts the statuses URL as well. *)
Theorem deployment_id_addresses_status_call (owner repo : string) (resp : response) :
  ownerAndRepo (RepositoryURL cfg) = Returned (owner, repo) ->
  urlError w (deploymentsURL cfg owner repo) = None ->
  roundTrip w [] (deploymentCall w cfg owner repo) = Ok resp ->
  StatusCode resp = 201%Z ->
  Body resp = Readable createdBody ->
  urlError w (statusesURL cfg owner repo 42) = None ->
  requests (fst (run (createDeployment w cfg)))
  = [deploymentCall w cfg owner repo; statusCall w cfg owner repo 42]
  /\ URL (statusCall w cfg owner repo 42)
     = APIURL cfg ++ "/repos/" ++ owner ++ "/" ++ repo ++ "/deployments/42/statuses"
  /\ hasSubstring "/deployments/42/statuses" (URL (statusCall w cfg owner repo 42))
     = true.
Proof.
  intros Ho Hu Hr Hs Hb Hu2; split; [|split].
  - unfold run.
    rewrite (createDeployment_run w cfg owner repo resp [] Ho Hu Hr).
    rewrite dumpIfNeeded_run, Hs, Hb.
    cbn [Z.eqb Pos.eqb negb orb].
    destruct (Verbose cfg); cbv iota beta zeta;
      rewrite Unmarshal_createdBody; cbn [fst Id];
      rewrite (createDeploymentStatus_requests w cfg owner repo 42 _ Ho Hu2);
      reflexivity.
  - reflexivity.
  - unfold statusCall, statusesURL; cbn [URL].
    do 5 apply hasSubstring_app_r.
    apply (hasSubstring_here "/deployments/42/statuses" "").
Qed.

(** C4: when the deployment-creation call is answered with a status other
    than 201, no second request is made, [createDeployment] returns an
    error, and [main] logs it and exits with code 1.  With a readable body
    the error is the one naming the status. *)
Theorem non_201_aborts_run (owner repo : string) (resp : response) :
  ownerAndRepo (RepositoryURL cfg) = Returned (owner, repo) ->
  urlError w (deploymentsURL cfg owner repo) = None ->
  roundTrip w [] (deploymentCall w cfg owner repo) = Ok resp ->
  StatusCode resp <> 201%Z ->
  exists (e : string) (out : list event),
    createDeployment w cfg [PrintConfig cfg]
    = (PrintConfig cfg :: DoRequest (deploymentCall w cfg owner repo) :: out,
       Returned (Some e))
    /\ requests out = []
    /\ main w (Ok cfg)
       = ((PrintConfig cfg :: DoRequest (deploymentCall w cfg owner repo) :: out)
            ++ [Errorf ("Error: " ++ e ++ nl)],
          Exit 1)%list
    /\ exitCode (snd (main w (Ok cfg))) = 1%Z
    /\ (forall data, Body resp = Readable data ->
        e = "server error, unexpected status code: " ++ Status resp).
Proof.
  intros Ho Hu Hr Hs.
  assert (Hrun : forall e out,
    createDeployment w cfg [PrintConfig cfg]
    = (PrintConfig cfg :: DoRequest (deploymentCall w cfg owner repo) :: out,
       Returned (Some e)) ->
    main w (Ok cfg)
    = ((PrintConfig cfg :: DoRequest (deploymentCall w cfg owner repo) :: out)
         ++ [Errorf ("Error: " ++ e ++ nl)], Exit 1)%list).
  { intros e out E; unfold main, run, bind, emit; cbn [List.app]; now rewrite E. }
  assert (Hn : negb (StatusCode resp =? 201)%Z = true)
    by (apply negb_true_iff, Z.eqb_neq; exact Hs).
  pose proof (createDeployment_run w cfg owner repo resp [PrintConfig cfg] Ho Hu Hr) as E.
  rewrite dumpIfNeeded_run, Hn in E; cbn [orb] in E.
  destruct (Body resp) as [data|err] eqn:Hb.
  - exists ("server error, unexpected status code: " ++ Status resp),
      [Println (dumpText w (deploymentCall w cfg owner repo) resp data)].
    split; [exact E|]. split; [reflexivity|].
    split; [now apply Hrun|]. split; [now rewrite (Hrun _ _ E)|]. reflexivity.
  - exists ("unable to dump response, error: " ++ err), [].
    split; [exact E|]. split; [reflexivity|].
    split; [now apply Hrun|]. split; [now rewrite (Hrun _ _ E)|]. discriminate.
Qed.

End Chaining.

Lemma deployment_id_addresses_status_call_witness :
  map URL (requests (fst (run (createDeployment
    (scriptedWorld (fun _ => None) (created createdBody) (created "")) sampleConfig))))
  = [ "https://api.github.com/repos/acme/widgets/deployments";
      "https://api.github.com/repos/acme/widgets/deployments/42/statuses" ].
Proof.
  destruct (deployment_id_addresses_status_call
              (scriptedWorld (fun _ => None) (created createdBody) (created ""))
              sampleConfig "acme" "widgets" (created createdBody)
              eq_refl eq_refl eq_refl eq_refl eq_refl eq_refl) as (H & _ & _).
  rewrite H; reflexivity.
Defined.

Lemma non_201_aborts_run_witness :
  exitCode (snd (main (constantWorld unprocessable) (Ok sampleConfig))) = 1%Z
  /\ map URL (requests (fst (main (constantWorld unprocessable) (Ok sampleConfig))))
     = [ "https://api.github.com/repos/acme/widgets/deployments" ].
Proof.
  destruct (non_201_aborts_run (constantWorld unprocessable) sampleConfig
              "acme" "widgets" unprocessable eq_refl eq_refl eq_refl)
    as (e & out & _ & Hout & Hmain & Hcode & _).
  - discriminate.
  - split; [exact Hcode|].
    rewrite Hmain; cbn [fst]; rewrite requests_app; cbn [requests]; rewrite Hout.
    reflexivity.
Defined.

(** ** The body of the first answer *)

Section ResponseBody.

Variable w : world.
Variable cfg : config.

(** After a 201 answer whose body can be read, [createDeployment] goes on
    to [createDeploymentStatus] with whatever identifier decoding left in
    the struct: what [Unmarshal] reports is not consulted. *)
Lemma createDeployment_ignores_decoding_errors (owner repo data : string)
  (resp : response) :
  ownerAndRepo (RepositoryURL cfg) = Returned (owner, repo) ->
  urlError w (deploymentsURL cfg owner repo) = None ->
  roundTrip w [] (deploymentCall w cfg owner repo) = Ok resp ->
  StatusCode resp = 201%Z ->
  Body resp = Readable data ->
  exists t,
    run (createDeployment w cfg)
    = createDeploymentStatus w cfg (Id (fst (Unmarshal data zeroResponse))) t
    /\ requests t = [deploymentCall w cfg owner repo].
Proof.
  intros Ho Hu Hr Hs Hb; unfold run.
  rewrite (createDeployment_run w cfg owner repo resp [] Ho Hu Hr).
  rewrite dumpIfNeeded_run, Hs, Hb.
  cbn [Z.eqb Pos.eqb negb orb].
  destruct (Verbose cfg); cbv iota beta zeta; eexists; split; reflexivity.
Qed.

(** After a 201 answer whose body cannot be read, a quiet run panics. *)
Lemma createDeployment_unreadable_body_panics (owner repo err : string)
  (resp : response) :
  ownerAndRepo (RepositoryURL cfg) = Returned (owner, repo) ->
  urlError w (deploymentsURL cfg owner repo) = None ->
  roundTrip w [] (deploymentCall w cfg owner repo) = Ok resp ->
  StatusCode resp = 201%Z ->
  Body resp = Unreadable err ->
  Verbose cfg = false ->
  run (createDeployment w cfg)
  = ([DoRequest (deploymentCall w cfg owner repo)], Panicked NilDereference).
Proof.
  intros Ho Hu Hr Hs Hb Hv; unfold run.
  rewrite (createDeployment_run w cfg owner repo resp [] Ho Hu Hr).
  rewrite dumpIfNeeded_run, Hs, Hb, Hv; reflexivity.
Qed.

End ResponseBody.

(** C8 (as the code has it): a body that is not JSON is no error for the
    run; the identifier stays 0, the second request goes to
    [.../deployments/0/statuses] and the run ends normally.  A body that
    cannot be read makes a quiet run panic, so that the process crashes
    instead of returning an error to [main]. *)
Theorem response_body_failures_not_propagated :
  let w := scriptedWorld (fun _ => None) (created "<html>") (created "") in
  let w' := constantWorld unreadable in
  Unmarshal "<html>" zeroResponse = (zeroResponse, Some json.SyntaxError)
  /\ run (createDeployment w sampleConfig)
     = ([ DoRequest (deploymentCall w sampleConfig "acme" "widgets");
          Println "deployment id 0";
          DoRequest (statusCall w sampleConfig "acme" "widgets" 0) ],
        Returned None)
  /\ URL (statusCall w sampleConfig "acme" "widgets" 0)
     = "https://api.github.com/repos/acme/widgets/deployments/0/statuses"
  /\ snd (main w (Ok sampleConfig)) = Return
  /\ run (createDeployment w' sampleConfig)
     = ([DoRequest (deploymentCall w' sampleConfig "acme" "widgets")],
        Panicked NilDereference)
  /\ snd (main w' (Ok sampleConfig)) = Crash NilDereference.
Proof. cbv zeta; repeat split; vm_compute; reflexivity. Qed.

(** ** Dumps *)

Section Dumps.

Variable w : world.
Variable cfg : config.




End Dumps.



(** ** The payloads *)

Section Payloads.

Variable w : world.
Variable cfg : config.

Lemma deploymentCall_state (owner repo : string) :
  json.member "state" (Payload (deploymentCall w cfg owner repo))
  = Some (json.Str "").
Proof. reflexivity. Qed.

Lemma statusCall_state (owner repo : string) (id : Z) :
  json.member "state" (Payload (statusCall w cfg owner repo id))
  = Some (json.Str (getState w (State cfg))).
Proof. reflexivity. Qed.

Lemma createDeploymentStatus_requests_shape (owner repo : string) (id : Z)
  (t : trace) :
  ownerAndRepo (RepositoryURL cfg) = Returned (owner, repo) ->
  requests (fst (createDeploymentStatus w cfg id t)) = requests t
  \/ requests (fst (createDeploymentStatus w cfg id t))
     = (requests t ++ [statusCall w cfg owner repo id])%list.
Proof.
  intros Ho.
  destruct (urlError w (statusesURL cfg owner repo id)) as [e|] eqn:Hu.
  - left; unfold createDeploymentStatus, bind, lift, NewRequest, ret.
    rewrite Ho; fold (statusesURL cfg owner repo id); rewrite Hu; reflexivity.
  - right; now apply createDeploymentStatus_requests.
Qed.

(** A run makes no request, or the deployment request alone, or the
    deployment request followed by one status request. *)
Lemma createDeployment_requests_shape :
  requests (fst (run (createDeployment w cfg))) = []
  \/ exists owner repo,
       ownerAndRepo (RepositoryURL cfg) = Returned (owner, repo)
       /\ (requests (fst (run (createDeployment w cfg)))
           = [deploymentCall w cfg owner repo]
           \/ exists id,
                requests (fst (run (createDeployment w cfg)))
                = [deploymentCall w cfg owner repo; statusCall w cfg owner repo id]).
Proof.
  destruct (ownerAndRepo (RepositoryURL cfg)) as [[owner repo]|p] eqn:Ho.
  2:{ left; unfold run, createDeployment, bind, lift; rewrite Ho; reflexivity. }
  destruct (urlError w (deploymentsURL cfg owner repo)) as [e|] eqn:Hu.
  { left; unfold run, createDeployment, bind, lift, NewRequest, ret.
    rewrite Ho; fold (deploymentsURL cfg owner repo); rewrite Hu; reflexivity. }
  right; exists owner, repo; split; [reflexivity|].
  destruct (roundTrip w [] (deploymentCall w cfg owner repo)) as [resp|e] eqn:Hr.
  - unfold run.
    rewrite (createDeployment_run w cfg owner repo resp [] Ho Hu Hr).
    rewrite dumpIfNeeded_run.
    destruct (negb (StatusCode resp =? 201)%Z || Verbose cfg);
      destruct (Body resp) as [data|err];
      destruct (negb (StatusCode resp =? 201)%Z);
      cbv zeta; try (left; reflexivity);
      match goal with
      | |- context [createDeploymentStatus w cfg ?i ?t] =>
          destruct (createDeploymentStatus_requests_shape owner repo i t Ho)
            as [-> | ->]
      end;
      [left; reflexivity | right; eexists; reflexivity
      |left; reflexivity | right; eexists; reflexivity].
  - left; unfold run, createDeployment, bind, lift, NewRequest, Do, ret.
    rewrite Ho; fold (deploymentsURL cfg owner repo); rewrite Hu.
    unfold Header_Add; cbn [Method URL Header Payload List.app].
    fold (authorization cfg).
    change (mkRequest "POST" (deploymentsURL cfg owner repo) (authorization cfg) _)
      with (deploymentCall w cfg owner repo).
    cbn [requests]; rewrite Hr; reflexivity.
Qed.

(** C10: the body of the first request of a run always has a ["state"]
    member holding the empty string, whatever state is configured or
    resolved: the [State] field is left unset and is encoded without
    [omitempty].  The resolved state is carried by the body of the second
    request only. *)
Theorem deployment_request_state_empty (req1 : request) :
  hd_error (requests (fst (run (createDeployment w cfg)))) = Some req1 ->
  json.member "state" (Payload req1) = Some (json.Str "")
  /\ (forall req2 : request,
        nth_error (requests (fst (run (createDeployment w cfg)))) 1 = Some req2 ->
        json.member "state" (Payload req2) = Some (json.Str (getState w (State cfg)))).
Proof.
  intros H1.
  destruct createDeployment_requests_shape as [E|(owner & repo & _ & [E|[id E]])];
    rewrite E in *; simpl in H1; inversion H1; subst.
  - split; [apply deploymentCall_state|]. intros req2 H2; discriminate.
  - split; [apply deploymentCall_state|].
    intros req2 H2; simpl in H2; inversion H2; subst; apply statusCall_state.
Qed.

End Payloads.

Lemma deployment_request_state_empty_witness :
  map (fun r => json.member "state" (Payload r))
    (requests (fst (run (createDeployment
       (scriptedWorld (fun _ => None) (created createdBody) (created "")) sampleConfig))))
  = [Some (json.Str ""); Some (json.Str "success")].
Proof.
  destruct (deployment_request_state_empty
              (scriptedWorld (fun _ => None) (created createdBody) (created ""))
              sampleConfig
              (deploymentCall
                 (scriptedWorld (fun _ => None) (created createdBody) (created ""))
                 sampleConfig "acme" "widgets")
              eq_refl) as [H1 H2].
  specialize (H2 (statusCall
                    (scriptedWorld (fun _ => None) (created createdBody) (created ""))
                    sampleConfig "acme" "widgets" 42) eq_refl).
  change (Some (json.Str "success"))
    with (Some (json.Str (getState
            (scriptedWorld (fun _ => None) (created createdBody) (created ""))
            (State sampleConfig)))).
  rewrite <- H1, <- H2; reflexivity.
Defined.

(** ** The scenario of a successful run *)

(** Repository [git@github.com:acme/widgets.git], commit [abc123], state
    [success], both calls answered 201: the first request goes to the
    deployments of [acme/widgets] with the commit as [ref], the second to
    the statuses of the deployment created, with state [success], and the
    process ends with code 0. *)
Example successful_run :
  let w := scriptedWorld (fun _ => None) (created createdBody) (created "") in
  main w (Ok sampleConfig)
  = ([ PrintConfig sampleConfig;
       DoRequest (deploymentCall w sampleConfig "acme" "widgets");
       Println "deployment id 42";
       DoRequest (statusCall w sampleConfig "acme" "widgets" 42) ],
     Return)
  /\ Payload (deploymentCall w sampleConfig "acme" "widgets")
     = json.Object [ ("required_contexts", json.Array []);
                     ("ref", json.Str "abc123");
                     ("environment", json.Str "staging");
                     ("state", json.Str "") ]
  /\ Payload (statusCall w sampleConfig "acme" "widgets" 42)
     = json.Object [ ("environment_url", json.Str "https://ci.example/build/7");
                     ("environment", json.Str "staging");
                     ("state", json.Str "success") ]
  /\ Header (deploymentCall w sampleConfig "acme" "widgets")
     = [("Authorization", "token secret")].
Proof. cbv zeta; repeat split; vm_compute; reflexivity. Qed.

(** * Further properties *)

(** ** More on the fields of a URL *)

Section MoreFields.

Lemma noSeparator_noSep (s : string) : noSeparator s = true -> noSep s.
Proof.
  induction s as [|c s IH]; simpl; [trivial|].
  intros H; apply andb_true_iff in H as [Hc Hs].
  apply negb_true_iff in Hc; auto.
Qed.

Lemma noSep_noSeparator (s : string) : noSep s -> noSeparator s = true.
Proof.
  induction s as [|c s IH]; simpl; [trivial|].
  intros [Hc Hs]; rewrite Hc, IH by assumption; reflexivity.
Qed.

Lemma noSep_contains (s : string) :
  noSep s -> contains "/" s = false /\ contains ":" s = false.
Proof.
  induction s as [|c s IH]; simpl; [auto|].
  intros [Hc Hs]; destruct (IH Hs) as [-> ->].
  unfold isURLSeparator in Hc; apply orb_false_iff in Hc as [-> ->]; auto.
Qed.

(** Separators between fields are skipped. *)
Lemma loop_skip_separators (seps rest : string) :
  onlySeparators seps = true ->
  strings.FieldsFunc_loop isURLSeparator (seps ++ rest) None
  = strings.FieldsFunc_loop isURLSeparator rest None.
Proof.
  induction seps as [|d seps IH]; simpl; [reflexivity|].
  intros H; apply andb_true_iff in H as [Hd Hs]; rewrite Hd; auto.
Qed.

(** A run of separators closes the open field. *)
Lemma loop_close_field (w seps rest : string) :
  seps <> "" -> onlySeparators seps = true ->
  strings.FieldsFunc_loop isURLSeparator (seps ++ rest) (Some w)
  = w :: strings.FieldsFunc_loop isURLSeparator rest None.
Proof.
  destruct seps as [|d seps]; [congruence|]; intros _ H; simpl in *.
  apply andb_true_iff in H as [Hd Hs]; rewrite Hd.
  now rewrite loop_skip_separators.
Qed.

(** A field in front of separators is the first field. *)
Lemma loop_field (w seps rest : string) :
  w <> "" -> noSep w -> seps <> "" -> onlySeparators seps = true ->
  strings.FieldsFunc_loop isURLSeparator (w ++ seps ++ rest) None
  = w :: strings.FieldsFunc_loop isURLSeparator rest None.
Proof.
  intros Hw Nw Hs Os.
  rewrite loop_first_word by assumption.
  now apply loop_close_field.
Qed.

(** A field in front of the end of the string or of a separator. *)
Lemma loop_field_end (w tail : string) :
  w <> "" -> noSep w -> endsField tail = true ->
  strings.FieldsFunc_loop isURLSeparator (w ++ tail) None
  = w :: strings.FieldsFunc_loop isURLSeparator tail None.
Proof.
  intros Hw Nw Ht.
  rewrite loop_first_word by assumption.
  destruct tail as [|d tail]; simpl in *; [reflexivity|].
  now rewrite Ht.
Qed.

(** Every field is non-empty and free of separators. *)
Lemma loop_fields_clean (s : string) (cur : option string) :
  match cur with
  | Some w => w <> "" /\ noSep w
  | None => True
  end ->
  Forall (fun x => x <> "" /\ noSep x)
         (strings.FieldsFunc_loop isURLSeparator s cur).
Proof.
  revert cur; induction s as [|c s IH]; intros cur Hc; simpl.
  - destruct cur; auto.
  - destruct (isURLSeparator c) eqn:E.
    + destruct cur; [constructor; [assumption|]|]; apply IH; exact I.
    + destruct cur as [w|]; apply IH.
      * destruct Hc as [Hw Nw]; split.
        -- destruct w; discriminate.
        -- apply noSep_app; simpl; auto.
      * simpl; split; [discriminate | auto].
Qed.

Lemma noSep_substring (s : string) (n m : nat) : noSep s -> noSep (substring n m s).
Proof.
  revert n m; induction s as [|c s IH]; intros n m H.
  - destruct n, m; exact I.
  - destruct H as [Hc Hs]; destruct n as [|n]; destruct m as [|m]; simpl; auto.
Qed.

Lemma noSep_TrimSuffix (s suffix : string) :
  noSep s -> noSep (strings.TrimSuffix s suffix).
Proof.
  intros H; unfold strings.TrimSuffix, strings.slice.
  destruct (strings.HasSuffix s suffix); [now apply noSep_substring | assumption].
Qed.

(** The parser on a URL whose text after ["https://"] starts with three
    fields: the second and the third are returned, whatever follows. *)
Lemma ownerAndRepo_three_fields (url h s1 o s2 x tail : string) :
  strings.TrimPrefix url "https://" = h ++ s1 ++ o ++ s2 ++ x ++ tail ->
  h <> "" -> h <> "git@" -> o <> "" -> x <> "" ->
  noSep h -> noSep o -> noSep x ->
  s1 <> "" -> onlySeparators s1 = true ->
  s2 <> "" -> onlySeparators s2 = true ->
  endsField tail = true ->
  ownerAndRepo url = Returned (o, strings.TrimSuffix x ".git").
Proof.
  intros E Hh Hg Ho Hx Nh No Nx Hs1 Os1 Hs2 Os2 Ht.
  unfold ownerAndRepo, urlFields; rewrite E.
  destruct s1 as [|d s1]; [congruence|].
  pose proof Os1 as Os1'; simpl in Os1'.
  apply andb_true_iff in Os1' as [Hd _].
  change (h ++ String d s1 ++ o ++ s2 ++ x ++ tail)
    with (h ++ String d (s1 ++ o ++ s2 ++ x ++ tail)).
  destruct (TrimPrefix_git h (s1 ++ o ++ s2 ++ x ++ tail) d Hd) as (h' & -> & Hh').
  assert (Hh'' : h' <> "").
  { destruct Hh' as [->| ->]; [assumption|]. intros ->; apply Hg; reflexivity. }
  assert (Nh' : noSep h').
  { destruct Hh' as [->| ->]; [assumption|]. now apply noSep_app_r in Nh. }
  unfold strings.FieldsFunc.
  change (h' ++ String d (s1 ++ o ++ s2 ++ x ++ tail))
    with (h' ++ String d s1 ++ o ++ s2 ++ x ++ tail).
  rewrite loop_field by assumption.
  rewrite loop_field by assumption.
  rewrite loop_field_end by assumption.
  reflexivity.
Qed.

End MoreFields.

(** ** More on the repository URL parser *)

(** X1: in an HTTPS URL the separators between host, owner and repository
    may be any non-empty runs of ['/'] and [':'], and anything may follow
    the repository once a separator (or the end) is reached: the parser
    returns the second field and the third field without its [.git]
    suffix, if it has one.  So a trailing slash or further path segments
    change nothing, the suffix is optional, and a port after the host
    takes the place of the owner. *)
Theorem ownerAndRepo_https_any_separators (host s1 owner s2 repo tail : string) :
  host <> "" -> host <> "git@" -> owner <> "" -> repo <> "" ->
  noSeparator host = true -> noSeparator owner = true -> noSeparator repo = true ->
  s1 <> "" -> onlySeparators s1 = true ->
  s2 <> "" -> onlySeparators s2 = true ->
  endsField tail = true ->
  ownerAndRepo ("https://" ++ host ++ s1 ++ owner ++ s2 ++ repo ++ tail)
  = Returned (owner, strings.TrimSuffix repo ".git").
Proof.
  intros Hh Hg Ho Hr Nh No Nr Hs1 Os1 Hs2 Os2 Ht.
  apply (ownerAndRepo_three_fields _ host s1 owner s2 repo tail);
    auto using noSeparator_noSep.
  apply TrimPrefix_app.
Qed.

Lemma ownerAndRepo_https_any_separators_witness :
  ownerAndRepo "https://github.com//acme/widgets.git/tree/main"
  = Returned ("acme", "widgets")
  /\ ownerAndRepo "https://github.com/acme/widgets/" = Returned ("acme", "widgets")
  /\ ownerAndRepo "https://example.org:8443/acme/widgets.git"
     = Returned ("8443", "acme").
Proof.
  split; [|split].
  - apply (ownerAndRepo_https_any_separators
             "github.com" "//" "acme" "/" "widgets.git" "/tree/main");
      (discriminate || reflexivity).
  - apply (ownerAndRepo_https_any_separators
             "github.com" "/" "acme" "/" "widgets" "/");
      (discriminate || reflexivity).
  - apply (ownerAndRepo_https_any_separators
             "example.org" ":" "8443" "/" "acme" "/widgets.git");
      (discriminate || reflexivity).
Defined.

(** X2: only ["https://"] is removed as a scheme.  With any other scheme
    the scheme itself is the first field, so the parser returns the host
    as the owner and the owner as the repository. *)
Theorem ownerAndRepo_other_scheme (scheme host owner tail : string) :
  scheme <> "" -> scheme <> "https" -> scheme <> "git@" ->
  host <> "" -> owner <> "" ->
  noSeparator scheme = true -> noSeparator host = true -> noSeparator owner = true ->
  endsField tail = true ->
  ownerAndRepo (scheme ++ "://" ++ host ++ "/" ++ owner ++ tail)
  = Returned (host, strings.TrimSuffix owner ".git").
Proof.
  intros Hs Hs' Hg Hh Ho Ns Nh No Ht.
  apply (ownerAndRepo_three_fields _ scheme "://" host "/" owner tail);
    auto using noSeparator_noSep; try discriminate.
  destruct (TrimPrefix_cases (scheme ++ "://" ++ host ++ "/" ++ owner ++ tail) "https://")
    as [(r & Er & _)|[_ ->]]; [exfalso|reflexivity].
  assert (Er' : scheme ++ String ":" ("//" ++ host ++ "/" ++ owner ++ tail)
                = "https" ++ String ":" (String "/" (String "/" r))) by exact Er.
  apply first_separator_unique in Er' as (E & _ & _);
    auto using noSeparator_noSep; simpl; intuition.
Qed.

Lemma ownerAndRepo_other_scheme_witness :
  ownerAndRepo "http://github.com/acme/widgets.git" = Returned ("github.com", "acme")
  /\ ownerAndRepo "ssh://git@github.com/acme/widgets.git"
     = Returned ("git@github.com", "acme").
Proof.
  split.
  - apply (ownerAndRepo_other_scheme "http" "github.com" "acme" "/widgets.git");
      (discriminate || reflexivity).
  - apply (ownerAndRepo_other_scheme "ssh" "git@github.com" "acme" "/widgets.git");
      (discriminate || reflexivity).
Defined.

(** X3: whatever the URL, an owner returned by the parser is not empty,
    and neither the owner nor the repository contains ['/'] or [':']: the
    paths built from them have the segments the calls intend. *)
Theorem ownerAndRepo_result_clean (url owner repo : string) :
  ownerAndRepo url = Returned (owner, repo) ->
  owner <> ""
  /\ contains "/" owner = false /\ contains ":" owner = false
  /\ contains "/" repo = false /\ contains ":" repo = false.
Proof.
  unfold ownerAndRepo, urlFields, strings.FieldsFunc; intros H.
  pose proof (loop_fields_clean
                (strings.TrimPrefix (strings.TrimPrefix url "https://") "git@")
                None I) as F.
  destruct (strings.FieldsFunc_loop isURLSeparator _ None) as [|a [|b [|c l]]];
    simpl in H; try discriminate.
  inversion H; subst.
  inversion F as [|? ? _ F1]; subst.
  inversion F1 as [|? ? [Hb Nb] F2]; subst.
  inversion F2 as [|? ? [Hc Nc] _]; subst.
  split; [assumption|].
  destruct (noSep_contains _ Nb) as [-> ->].
  destruct (noSep_contains _ (noSep_TrimSuffix c ".git" Nc)) as [-> ->].
  auto.
Qed.

Lemma ownerAndRepo_result_clean_witness :
  "acme" <> ""
  /\ contains "/" "acme" = false /\ contains ":" "acme" = false
  /\ contains "/" "widgets" = false /\ contains ":" "widgets" = false.
Proof.
  apply (ownerAndRepo_result_clean "git@github.com:acme/widgets.git" "acme" "widgets").
  reflexivity.
Defined.

(** ** More on the state *)

(** X4: [getState] never returns ["auto"], and it maps each of the five
    values the configuration admits to one of the four states a deployment
    status can take. *)
Theorem getState_resolves (w : world) (preset : string) :
  getState w preset <> "auto"
  /\ (In preset presets -> In (getState w preset) states).
Proof.
  unfold getState; split.
  - destruct (String.eqb_spec preset "auto") as [->|H]; simpl; [|exact H].
    destruct (Getenv w "BITRISE_BUILD_STATUS" =? "0"); discriminate.
  - intros H; simpl in H.
    destruct H as [<-|[<-|[<-|[<-|[<-|[]]]]]]; simpl; auto.
    destruct (Getenv w "BITRISE_BUILD_STATUS" =? "0"); simpl; auto.
Qed.

Lemma getState_resolves_witness :
  In (getState (constantWorld (created "")) "auto") states
  /\ In (getState (constantWorld (created "")) "error") states.
Proof.
  split.
  - apply (proj2 (getState_resolves (constantWorld (created "")) "auto")).
    simpl; auto.
  - apply (proj2 (getState_resolves (constantWorld (created "")) "error")).
    simpl; auto 6.
Defined.

(** ** Runs as a whole *)

Section Runs.

Variable w : world.
Variable cfg : config.

(** [createDeploymentStatus] looks at the trace only for the requests made
    so far, and adds to it. *)
Lemma createDeploymentStatus_frame (id : Z) (t : trace) :
  exists out res,
    forall t0, requests t0 = requests t ->
      createDeploymentStatus w cfg id t0 = ((t0 ++ out)%list, res).
Proof.
  unfold createDeploymentStatus, bind, lift, NewRequest, Do, ret.
  destruct (ownerAndRepo (RepositoryURL cfg)) as [[owner repo]|p].
  2:{ exists [], (Panicked p); intros t0 _; now rewrite app_nil_r. }
  fold (statusesURL cfg owner repo id).
  destruct (urlError w (statusesURL cfg owner repo id)) as [e|].
  { exists [], (Returned (Some e)); intros t0 _; now rewrite app_nil_r. }
  unfold Header_Add; cbn [Method URL Header Payload List.app].
  fold (statusesURL cfg owner repo id); fold (authorization cfg).
  change (mkRequest "POST" (statusesURL cfg owner repo id) (authorization cfg) _)
    with (statusCall w cfg owner repo id).
  destruct (roundTrip w (requests t) (statusCall w cfg owner repo id))
    as [resp|e] eqn:Hr.
  2:{ eexists _, _; intros t0 E; rewrite E, Hr; reflexivity. }
  unfold httpDump, DumpResponse, DumpRequest, bind, emit, ret.
  destruct (negb (StatusCode resp =? 201)%Z || Verbose cfg) eqn:Hd;
    [destruct (Body resp) eqn:Hb|];
    destruct (negb (StatusCode resp =? 201)%Z) eqn:Hs;
    eexists _, _; intros t0 E; rewrite E, Hr, ?Hs, ?Hd, ?Hb; cbn [orb];
    rewrite ?Hd, <- ?app_assoc; reflexivity.
Qed.

(** So does [createDeployment], which starts without any request made. *)
Lemma createDeployment_frame (t0 : trace) :
  requests t0 = [] ->
  createDeployment w cfg t0
  = ((t0 ++ fst (run (createDeployment w cfg)))%list,
     snd (run (createDeployment w cfg))).
Proof.
  intros E0.
  destruct (ownerAndRepo (RepositoryURL cfg)) as [[owner repo]|p] eqn:Ho.
  2:{ unfold run, createDeployment, bind, lift; rewrite Ho; cbn [fst snd].
      now rewrite app_nil_r. }
  destruct (urlError w (deploymentsURL cfg owner repo)) as [e|] eqn:Hu.
  { unfold run, createDeployment, bind, lift, NewRequest, ret.
    rewrite Ho; fold (deploymentsURL cfg owner repo); rewrite Hu; cbn [fst snd].
    now rewrite app_nil_r. }
  destruct (roundTrip w [] (deploymentCall w cfg owner repo)) as [resp|e] eqn:Hr.
  - assert (Hr0 : roundTrip w (requests t0) (deploymentCall w cfg owner repo) = Ok resp)
      by now rewrite E0.
    unfold run.
    rewrite (createDeployment_run w cfg owner repo resp [] Ho Hu Hr).
    rewrite (createDeployment_run w cfg owner repo resp t0 Ho Hu Hr0).
    rewrite !dumpIfNeeded_run.
    destruct (negb (StatusCode resp =? 201)%Z || Verbose cfg);
      destruct (Body resp) as [data|err];
      destruct (negb (StatusCode resp =? 201)%Z);
      cbv zeta; cbn [fst snd List.app]; rewrite <- ?app_assoc; cbn [List.app];
      try reflexivity;
      match goal with
      | |- context [createDeploymentStatus w cfg ?i (DoRequest ?r :: ?u)] =>
          destruct (createDeploymentStatus_frame i (DoRequest r :: u))
            as (out & res & F);
          rewrite (F (DoRequest r :: u) eq_refl);
          rewrite (F (t0 ++ DoRequest r :: u)%list)
            by (rewrite requests_app, E0; reflexivity)
      end;
      cbn [fst snd]; rewrite <- app_assoc; reflexivity.
  - unfold run, createDeployment, bind, lift, NewRequest, Do, ret.
    rewrite Ho; fold (deploymentsURL cfg owner repo); rewrite Hu.
    unfold Header_Add; cbn [Method URL Header Payload List.app].
    fold (authorization cfg).
    change (mkRequest "POST" (deploymentsURL cfg owner repo) (authorization cfg) _)
      with (deploymentCall w cfg owner repo).
    rewrite E0; cbn [requests]; rewrite Hr; reflexivity.
Qed.

(** [main] on a parsed configuration prints it and then does what
    [createDeployment] does from an empty trace. *)
Lemma main_run :
  main w (Ok cfg)
  = match run (createDeployment w cfg) with
    | (t, Panicked p) => (PrintConfig cfg :: t, Crash p)
    | (t, Returned (Some e)) =>
        (PrintConfig cfg :: (t ++ [Errorf ("Error: " ++ e ++ nl)])%list, Exit 1)
    | (t, Returned None) => (PrintConfig cfg :: t, Return)
    end.
Proof.
  unfold main, run at 1, bind, emit; cbn [List.app].
  rewrite (createDeployment_frame [PrintConfig cfg] eq_refl).
  destruct (run (createDeployment w cfg)) as [t [[e|]|p]]; reflexivity.
Qed.

End Runs.

(** ** Requests and payloads of a run *)

Section Requests.

Variable w : world.
Variable cfg : config.

(** X5: a run makes at most two requests, and each of them is a POST that
    carries the [Authorization] header with the configured token and no
    other header. *)
Theorem run_requests_well_formed :
  List.length (requests (fst (run (createDeployment w cfg)))) <= 2
  /\ Forall (fun req =>
               Method req = "POST"
               /\ Header req = [("Authorization", "token " ++ AuthToken cfg)])
            (requests (fst (run (createDeployment w cfg)))).
Proof.
  destruct (createDeployment_requests_shape w cfg)
    as [E|(owner & repo & _ & [E|[id E]])]; rewrite E; simpl;
    split; try lia; repeat constructor.
Qed.



End Requests.



(** ** Outcomes of a run *)

Section Outcomes.

Variable w : world.
Variable cfg : config.

(** [createDeploymentStatus] returns [nil] only after a 201 answer. *)
Lemma createDeploymentStatus_nil (owner repo : string) (id : Z) (t : trace) :
  ownerAndRepo (RepositoryURL cfg) = Returned (owner, repo) ->
  snd (createDeploymentStatus w cfg id t) = Returned None ->
  exists resp,
    roundTrip w (requests t) (statusCall w cfg owner repo id) = Ok resp
    /\ StatusCode resp = 201%Z.
Proof.
  intros Ho.
  destruct (urlError w (statusesURL cfg owner repo id)) as [e|] eqn:Hu.
  { unfold createDeploymentStatus, bind, lift, NewRequest, ret.
    rewrite Ho; fold (statusesURL cfg owner repo id); rewrite Hu; discriminate. }
  destruct (roundTrip w (requests t) (statusCall w cfg owner repo id))
    as [resp|e] eqn:Hr.
  - rewrite (createDeploymentStatus_run w cfg owner repo id resp t Ho Hu Hr).
    rewrite dumpIfNeeded_run.
    destruct (negb (StatusCode resp =? 201)%Z || Verbose cfg);
      [destruct (Body resp)|];
      destruct (negb (StatusCode resp =? 201)%Z) eqn:Hs; cbn [snd];
      try discriminate; intros _; exists resp; split; try reflexivity;
      apply negb_false_iff, Z.eqb_eq in Hs; exact Hs.
  - unfold createDeploymentStatus, bind, lift, NewRequest, Do, ret.
    rewrite Ho; fold (statusesURL cfg owner repo id); rewrite Hu.
    unfold Header_Add; cbn [Method URL Header Payload List.app].
    fold (authorization cfg).
    change (mkRequest "POST" (statusesURL cfg owner repo id) (authorization cfg) _)
      with (statusCall w cfg owner repo id).
    rewrite Hr; discriminate.
Qed.

(** Unfolds the status call in the goal, given the owner and repository,
    the accepted URL and the answer to the request. *)
Ltac status_run Ho Hu Hr :=
  match goal with
  | |- context [createDeploymentStatus ?w ?cfg ?i ?t] =>
      rewrite (createDeploymentStatus_run w cfg _ _ i _ t Ho Hu Hr)
  end.

(** X8: when both calls are answered 201 and the bodies can be read, a
    quiet run prints one line, the deployment identifier, between the two
    requests; a verbose run also prints the dump of each call right after
    it.  [createDeployment] returns [nil] and the process ends with
    code 0. *)
Theorem successful_run_trace (owner repo data1 data2 : string)
  (resp1 resp2 : response) :
  ownerAndRepo (RepositoryURL cfg) = Returned (owner, repo) ->
  urlError w (deploymentsURL cfg owner repo) = None ->
  roundTrip w [] (deploymentCall w cfg owner repo) = Ok resp1 ->
  StatusCode resp1 = 201%Z ->
  Body resp1 = Readable data1 ->
  urlError w (statusesURL cfg owner repo (deploymentIdOf data1)) = None ->
  roundTrip w [deploymentCall w cfg owner repo]
    (statusCall w cfg owner repo (deploymentIdOf data1)) = Ok resp2 ->
  StatusCode resp2 = 201%Z ->
  Body resp2 = Readable data2 ->
  run (createDeployment w cfg)
  = ((DoRequest (deploymentCall w cfg owner repo)
        :: (if Verbose cfg
            then [Println (dumpText w (deploymentCall w cfg owner repo) resp1 data1)]
            else [])
        ++ Println ("deployment id " ++ formatInt (deploymentIdOf data1))
        :: DoRequest (statusCall w cfg owner repo (deploymentIdOf data1))
        :: (if Verbose cfg
            then [Println (dumpText w
                             (statusCall w cfg owner repo (deploymentIdOf data1))
                             resp2 data2)]
            else []))%list,
     Returned None)
  /\ exitCode (snd (main w (Ok cfg))) = 0%Z.
Proof.
  intros Ho Hu1 Hr1 Hs1 Hb1 Hu2 Hr2 Hs2 Hb2.
  assert (E : run (createDeployment w cfg)
    = ((DoRequest (deploymentCall w cfg owner repo)
        :: (if Verbose cfg
            then [Println (dumpText w (deploymentCall w cfg owner repo) resp1 data1)]
            else [])
        ++ Println ("deployment id " ++ formatInt (deploymentIdOf data1))
        :: DoRequest (statusCall w cfg owner repo (deploymentIdOf data1))
        :: (if Verbose cfg
            then [Println (dumpText w
                             (statusCall w cfg owner repo (deploymentIdOf data1))
                             resp2 data2)]
            else []))%list,
     Returned None)).
  { unfold run.
    rewrite (createDeployment_run w cfg owner repo resp1 [] Ho Hu1 Hr1).
    rewrite dumpIfNeeded_run, Hs1, Hb1.
    cbn [Z.eqb Pos.eqb negb orb].
    destruct (Verbose cfg) eqn:Hv; cbv zeta; fold (deploymentIdOf data1);
      cbn [List.app].
    - status_run Ho Hu2 Hr2.
      rewrite dumpIfNeeded_run, Hs2, Hb2, Hv; reflexivity.
    - status_run Ho Hu2 Hr2.
      rewrite dumpIfNeeded_run, Hs2, Hv; reflexivity. }
  split; [exact E|].
  rewrite main_run, E; reflexivity.
Qed.

(** X9: the process ends with code 0 only if both requests were made and
    both were answered 201, the second being addressed with the identifier
    read from the body of the first answer. *)
Theorem exit_zero_only_after_two_201 :
  snd (main w (Ok cfg)) = Return ->
  exists owner repo data resp1 resp2,
    ownerAndRepo (RepositoryURL cfg) = Returned (owner, repo)
    /\ roundTrip w [] (deploymentCall w cfg owner repo) = Ok resp1
    /\ StatusCode resp1 = 201%Z
    /\ Body resp1 = Readable data
    /\ roundTrip w [deploymentCall w cfg owner repo]
         (statusCall w cfg owner repo (deploymentIdOf data)) = Ok resp2
    /\ StatusCode resp2 = 201%Z.
Proof.
  rewrite main_run.
  destruct (run (createDeployment w cfg)) as [t [[e|]|p]] eqn:E;
    cbn [snd]; try discriminate; intros _.
  assert (E' : snd (run (createDeployment w cfg)) = Returned None)
    by now rewrite E.
  clear E; revert E'; unfold run.
  destruct (ownerAndRepo (RepositoryURL cfg)) as [[owner repo]|p] eqn:Ho.
  2:{ unfold createDeployment, bind, lift; rewrite Ho; discriminate. }
  destruct (urlError w (deploymentsURL cfg owner repo)) as [e|] eqn:Hu.
  { unfold createDeployment, bind, lift, NewRequest, ret.
    rewrite Ho; fold (deploymentsURL cfg owner repo); rewrite Hu; discriminate. }
  destruct (roundTrip w [] (deploymentCall w cfg owner repo)) as [resp1|e] eqn:Hr.
  - rewrite (createDeployment_run w cfg owner repo resp1 [] Ho Hu Hr).
    rewrite dumpIfNeeded_run.
    destruct (negb (StatusCode resp1 =? 201)%Z || Verbose cfg);
      destruct (Body resp1) as [data|err] eqn:Hb;
      destruct (negb (StatusCode resp1 =? 201)%Z) eqn:Hs;
      cbv zeta; cbn [snd]; try discriminate;
      fold (deploymentIdOf data); intros E;
      apply (createDeploymentStatus_nil owner repo) in E as (resp2 & Hr2 & Hs2);
      try assumption;
      exists owner, repo, data, resp1, resp2;
      apply negb_false_iff, Z.eqb_eq in Hs; auto 10.
  - unfold createDeployment, bind, lift, NewRequest, Do, ret.
    rewrite Ho; fold (deploymentsURL cfg owner repo); rewrite Hu.
    unfold Header_Add; cbn [Method URL Header Payload List.app].
    fold (authorization cfg).
    change (mkRequest "POST" (deploymentsURL cfg owner repo) (authorization cfg) _)
      with (deploymentCall w cfg owner repo).
    cbn [requests]; rewrite Hr; discriminate.
Qed.

(** X10: when the deployment request cannot be sent, the run makes that
    one attempt, prints nothing, and the process logs the wrapped error
    and ends with code 1. *)
Theorem transport_failure_aborts (owner repo e : string) :
  ownerAndRepo (RepositoryURL cfg) = Returned (owner, repo) ->
  urlError w (deploymentsURL cfg owner repo) = None ->
  roundTrip w [] (deploymentCall w cfg owner repo) = Err e ->
  main w (Ok cfg)
  = ([ PrintConfig cfg;
       DoRequest (deploymentCall w cfg owner repo);
       Errorf ("Error: failed to send the request: " ++ e ++ nl) ],
     Exit 1).
Proof.
  intros Ho Hu Hr.
  rewrite main_run.
  unfold run, createDeployment, bind, lift, NewRequest, Do, ret.
  rewrite Ho; fold (deploymentsURL cfg owner repo); rewrite Hu.
  unfold Header_Add; cbn [Method URL Header Payload List.app].
  fold (authorization cfg).
  change (mkRequest "POST" (deploymentsURL cfg owner repo) (authorization cfg) _)
    with (deploymentCall w cfg owner repo).
  cbn [requests]; rewrite Hr; cbn [List.app].
  now rewrite append_assoc.
Qed.

(** X11: when [http.NewRequest] rejects the deployments URL, no request is
    made at all: the process logs that error and ends with code 1. *)
Theorem rejected_url_makes_no_request (owner repo e : string) :
  ownerAndRepo (RepositoryURL cfg) = Returned (owner, repo) ->
  urlError w (deploymentsURL cfg owner repo) = Some e ->
  main w (Ok cfg) = ([PrintConfig cfg; Errorf ("Error: " ++ e ++ nl)], Exit 1).
Proof.
  intros Ho Hu.
  rewrite main_run.
  unfold run, createDeployment, bind, lift, NewRequest, ret.
  rewrite Ho; fold (deploymentsURL cfg owner repo); rewrite Hu; reflexivity.
Qed.

(** X12: a repository URL with fewer than three fields makes the process
    crash on the index panic before any request is made and without any
    error being logged. *)
Theorem short_url_crashes_before_any_request :
  List.length (urlFields (RepositoryURL cfg)) < 3 ->
  exists i,
    main w (Ok cfg)
    = ([PrintConfig cfg],
       Crash (IndexOutOfRange i (List.length (urlFields (RepositoryURL cfg)))))
    /\ exitCode (snd (main w (Ok cfg))) = 2%Z.
Proof.
  intros H.
  destruct (ownerAndRepo_short _ H) as (i & _ & E); exists i.
  rewrite main_run.
  unfold run, createDeployment, bind, lift; rewrite E; auto.
Qed.

(** X13: when the status request is answered with a status other than
    201, the deployment request has been made and stays made: the run has
    both requests, returns the error naming the status, and the process
    ends with code 1. *)
Theorem status_failure_after_deployment (owner repo data1 data2 : string)
  (resp1 resp2 : response) :
  ownerAndRepo (RepositoryURL cfg) = Returned (owner, repo) ->
  urlError w (deploymentsURL cfg owner repo) = None ->
  roundTrip w [] (deploymentCall w cfg owner repo) = Ok resp1 ->
  StatusCode resp1 = 201%Z ->
  Body resp1 = Readable data1 ->
  urlError w (statusesURL cfg owner repo (deploymentIdOf data1)) = None ->
  roundTrip w [deploymentCall w cfg owner repo]
    (statusCall w cfg owner repo (deploymentIdOf data1)) = Ok resp2 ->
  StatusCode resp2 <> 201%Z ->
  Body resp2 = Readable data2 ->
  requests (fst (run (createDeployment w cfg)))
  = [ deploymentCall w cfg owner repo;
      statusCall w cfg owner repo (deploymentIdOf data1) ]
  /\ snd (run (createDeployment w cfg))
     = Returned (Some ("server error, unexpected status code: " ++ Status resp2))
  /\ snd (main w (Ok cfg)) = Exit 1.
Proof.
  intros Ho Hu1 Hr1 Hs1 Hb1 Hu2 Hr2 Hs2 Hb2.
  assert (Hn : negb (StatusCode resp2 =? 201)%Z = true)
    by (apply negb_true_iff, Z.eqb_neq; exact Hs2).
  assert (E : requests (fst (run (createDeployment w cfg)))
              = [ deploymentCall w cfg owner repo;
                  statusCall w cfg owner repo (deploymentIdOf data1) ]
              /\ snd (run (createDeployment w cfg))
                 = Returned (Some ("server error, unexpected status code: "
                                   ++ Status resp2))).
  { unfold run.
    rewrite (createDeployment_run w cfg owner repo resp1 [] Ho Hu1 Hr1).
    rewrite dumpIfNeeded_run, Hs1, Hb1.
    cbn [Z.eqb Pos.eqb negb orb].
    destruct (Verbose cfg); cbv zeta; fold (deploymentIdOf data1);
      cbn [List.app];
      status_run Ho Hu2 Hr2;
      rewrite dumpIfNeeded_run, Hn, Hb2; cbn [orb fst snd];
      rewrite ?requests_app; split; reflexivity. }
  destruct E as [E1 E2]; split; [exact E1|]; split; [exact E2|].
  rewrite main_run.
  destruct (run (createDeployment w cfg)) as [t r]; cbn [snd] in E2; subst r.
  reflexivity.
Qed.

(** X14: a 201 answer whose body is not valid JSON leaves the identifier
    at 0: the status request is made all the same, for deployment 0. *)
Theorem invalid_json_addresses_deployment_zero (owner repo data : string)
  (resp : response) :
  ownerAndRepo (RepositoryURL cfg) = Returned (owner, repo) ->
  urlError w (deploymentsURL cfg owner repo) = None ->
  roundTrip w [] (deploymentCall w cfg owner repo) = Ok resp ->
  StatusCode resp = 201%Z ->
  Body resp = Readable data ->
  json.parse data = None ->
  urlError w (statusesURL cfg owner repo 0) = None ->
  requests (fst (run (createDeployment w cfg)))
  = [deploymentCall w cfg owner repo; statusCall w cfg owner repo 0]
  /\ URL (statusCall w cfg owner repo 0)
     = APIURL cfg ++ "/repos/" ++ owner ++ "/" ++ repo ++ "/deployments/0/statuses".
Proof.
  intros Ho Hu Hr Hs Hb Hp Hu2; split; [|reflexivity].
  destruct (createDeployment_ignores_decoding_errors w cfg owner repo data resp
              Ho Hu Hr Hs Hb) as (t & -> & Ht).
  assert (E : Id (fst (Unmarshal data zeroResponse)) = 0%Z)
    by (unfold Unmarshal; now rewrite Hp).
  rewrite E, (createDeploymentStatus_requests w cfg owner repo 0 t Ho Hu2), Ht.
  reflexivity.
Qed.

(** X15: when the body of a 201 answer cannot be read, a verbose run
    returns the error of the dump, while a quiet run panics; in both cases
    no status request is made. *)
Theorem unreadable_body_verbose_or_panic (owner repo err : string) (resp : response) :
  ownerAndRepo (RepositoryURL cfg) = Returned (owner, repo) ->
  urlError w (deploymentsURL cfg owner repo) = None ->
  roundTrip w [] (deploymentCall w cfg owner repo) = Ok resp ->
  StatusCode resp = 201%Z ->
  Body resp = Unreadable err ->
  run (createDeployment w cfg)
  = ([DoRequest (deploymentCall w cfg owner repo)],
     if Verbose cfg
     then Returned (Some ("unable to dump response, error: " ++ err))
     else Panicked NilDereference).
Proof.
  intros Ho Hu Hr Hs Hb; unfold run.
  rewrite (createDeployment_run w cfg owner repo resp [] Ho Hu Hr).
  rewrite dumpIfNeeded_run, Hs, Hb.
  destruct (Verbose cfg); reflexivity.
Qed.

End Outcomes.

Lemma successful_run_trace_witness :
  printed (fst (run (createDeployment
     (scriptedWorld (fun _ => None) (created createdBody) (created "ok"))
     sampleConfig)))
  = ["deployment id 42"]
  /\ List.length (printed (fst (run (createDeployment
       (scriptedWorld (fun _ => None) (created createdBody) (created "ok"))
       verboseSampleConfig))))
     = 3.
Proof.
  split.
  - destruct (successful_run_trace
                (scriptedWorld (fun _ => None) (created createdBody) (created "ok"))
                sampleConfig "acme" "widgets" createdBody "ok"
                (created createdBody) (created "ok")
                eq_refl eq_refl eq_refl eq_refl eq_refl eq_refl eq_refl eq_refl eq_refl)
      as [E _].
    rewrite E; vm_compute; reflexivity.
  - destruct (successful_run_trace
                (scriptedWorld (fun _ => None) (created createdBody) (created "ok"))
                verboseSampleConfig "acme" "widgets" createdBody "ok"
                (created createdBody) (created "ok")
                eq_refl eq_refl eq_refl eq_refl eq_refl eq_refl eq_refl eq_refl eq_refl)
      as [E _].
    rewrite E; vm_compute; reflexivity.
Defined.

Lemma exit_zero_only_after_two_201_witness :
  exists owner repo data resp1 resp2,
    ownerAndRepo (RepositoryURL sampleConfig) = Returned (owner, repo)
    /\ roundTrip (scriptedWorld (fun _ => None) (created createdBody) (created "ok")) []
         (deploymentCall
            (scriptedWorld (fun _ => None) (created createdBody) (created "ok"))
            sampleConfig owner repo) = Ok resp1
    /\ StatusCode resp1 = 201%Z
    /\ Body resp1 = Readable data
    /\ roundTrip (scriptedWorld (fun _ => None) (created createdBody) (created "ok"))
         [deploymentCall
            (scriptedWorld (fun _ => None) (created createdBody) (created "ok"))
            sampleConfig owner repo]
         (statusCall
            (scriptedWorld (fun _ => None) (created createdBody) (created "ok"))
            sampleConfig owner repo (deploymentIdOf data)) = Ok resp2
    /\ StatusCode resp2 = 201%Z.
Proof.
  apply (exit_zero_only_after_two_201
           (scriptedWorld (fun _ => None) (created createdBody) (created "ok"))
           sampleConfig).
  vm_compute; reflexivity.
Defined.

Lemma transport_failure_aborts_witness :
  exitCode (snd (main offlineWorld (Ok sampleConfig))) = 1%Z
  /\ printed (fst (main offlineWorld (Ok sampleConfig))) = [].
Proof.
  rewrite (transport_failure_aborts offlineWorld sampleConfig "acme" "widgets"
             "dial tcp: i/o timeout" eq_refl eq_refl eq_refl).
  split; reflexivity.
Defined.

Lemma rejected_url_makes_no_request_witness :
  requests (fst (main strictWorld (Ok sampleConfig))) = []
  /\ snd (main strictWorld (Ok sampleConfig)) = Exit 1.
Proof.
  rewrite (rejected_url_makes_no_request strictWorld sampleConfig "acme" "widgets"
             "net/url: invalid control character in URL" eq_refl eq_refl).
  split; reflexivity.
Defined.

Lemma short_url_crashes_before_any_request_witness :
  exists i,
    main (constantWorld (created "")) (Ok shortURLConfig)
    = ([PrintConfig shortURLConfig],
       Crash (IndexOutOfRange i
                (List.length (urlFields (RepositoryURL shortURLConfig)))))
    /\ exitCode (snd (main (constantWorld (created "")) (Ok shortURLConfig))) = 2%Z.
Proof.
  apply (short_url_crashes_before_any_request (constantWorld (created ""))
           shortURLConfig).
  vm_compute; lia.
Defined.

Lemma status_failure_after_deployment_witness :
  map URL (requests (fst (run (createDeployment
    (scriptedWorld (fun _ => None) (created createdBody) unprocessable)
    sampleConfig))))
  = [ "https://api.github.com/repos/acme/widgets/deployments";
      "https://api.github.com/repos/acme/widgets/deployments/42/statuses" ]
  /\ snd (main (scriptedWorld (fun _ => None) (created createdBody) unprocessable)
            (Ok sampleConfig))
     = Exit 1.
Proof.
  destruct (status_failure_after_deployment
              (scriptedWorld (fun _ => None) (created createdBody) unprocessable)
              sampleConfig "acme" "widgets" createdBody "{}"
              (created createdBody) unprocessable
              eq_refl eq_refl eq_refl eq_refl eq_refl eq_refl eq_refl)
    as (E1 & _ & E3); [discriminate | reflexivity |].
  rewrite E1, E3; split; vm_compute; reflexivity.
Defined.

Lemma invalid_json_addresses_deployment_zero_witness :
  map URL (requests (fst (run (createDeployment
    (scriptedWorld (fun _ => None) (created "<html>") (created ""))
    sampleConfig))))
  = [ "https://api.github.com/repos/acme/widgets/deployments";
      "https://api.github.com/repos/acme/widgets/deployments/0/statuses" ].
Proof.
  destruct (invalid_json_addresses_deployment_zero
              (scriptedWorld (fun _ => None) (created "<html>") (created ""))
              sampleConfig "acme" "widgets" "<html>" (created "<html>")
              eq_refl eq_refl eq_refl eq_refl eq_refl eq_refl eq_refl)
    as [E _].
  rewrite E; reflexivity.
Defined.

Lemma unreadable_body_verbose_or_panic_witness :
  snd (run (createDeployment (constantWorld unreadable) sampleConfig))
  = Panicked NilDereference
  /\ snd (run (createDeployment (constantWorld unreadable) verboseSampleConfig))
     = Returned (Some "unable to dump response, error: unexpected EOF").
Proof.
  split.
  - rewrite (unreadable_body_verbose_or_panic (constantWorld unreadable) sampleConfig
               "acme" "widgets" "unexpected EOF" unreadable
               eq_refl eq_refl eq_refl eq_refl eq_refl).
    reflexivity.
  - rewrite (unreadable_body_verbose_or_panic (constantWorld unreadable)
               verboseSampleConfig "acme" "widgets" "unexpected EOF" unreadable
               eq_refl eq_refl eq_refl eq_refl eq_refl).
    reflexivity.
Defined.

(** ** Identifiers in decimal *)

Section Decimals.

Lemma decimal_string_of_uint (d : Decimal.uint) (acc : Z) :
  json.decimal acc (NilEmpty.string_of_uint d) = Some (horner acc d).
Proof.
  revert acc; induction d; intros acc; cbn [NilEmpty.string_of_uint horner];
    [reflexivity | ..]; cbn [json.decimal];
    match goal with
    | |- (if json.isDigit ?c then _ else _) = _ =>
        change (json.isDigit c) with true; cbv iota
    end;
    rewrite <- IHd; f_equal.
Qed.

Lemma horner_pos (d : Decimal.uint) (acc : positive) :
  horner (Zpos acc) d = Zpos (Pos.of_uint_acc d acc).
Proof.
  revert acc; induction d; intros acc; cbn [horner Pos.of_uint_acc];
    [reflexivity | ..];
    rewrite <- IHd; f_equal; lia.
Qed.

Lemma horner_zero (d : Decimal.uint) : horner 0 d = Z.of_N (Pos.of_uint d).
Proof.
  induction d; cbn [horner Pos.of_uint]; try reflexivity;
    [exact IHd | ..];
    match goal with
    | |- horner ?z _ = _ => change z with (Zpos (Z.to_pos z)); cbn [Z.to_pos]
    end;
    rewrite horner_pos; reflexivity.
Qed.

(** The digits of a positive number start with a digit other than zero. *)
Lemma to_uint_leadingDigit (p : positive) : leadingDigit (Pos.to_uint p) = true.
Proof.
  pose proof (Unsigned.to_of (Pos.to_uint p)) as H.
  rewrite Unsigned.of_to in H; cbn [N.to_uint] in H.
  assert (G : forall d, Decimal.nzhead d = Decimal.Nil
                        \/ leadingDigit (Decimal.nzhead d) = true)
    by (induction d; simpl; auto).
  unfold Decimal.unorm in H.
  destruct (G (Pos.to_uint p)) as [E|E].
  - rewrite E in H; now apply Unsigned.to_uint_nonzero in H.
  - destruct (Decimal.nzhead (Pos.to_uint p)); try discriminate E;
      rewrite H; reflexivity.
Qed.

Lemma string_of_uint_leading (d : Decimal.uint) :
  leadingDigit d = true ->
  exists c l,
    NilEmpty.string_of_uint d = String c l
    /\ json.isDigit c = true /\ c <> "0"%char.
Proof.
  destruct d; simpl; try discriminate; intros _;
    eexists _, _; (split; [reflexivity|]); split; (reflexivity || discriminate).
Qed.

(** Scanning digits stops where the digits of a number end. *)
Lemma digits_string_of_uint (d : Decimal.uint) (c : ascii) (rest : string) :
  json.isDigit c = false ->
  json.digits (NilEmpty.string_of_uint d ++ String c rest)
  = (NilEmpty.string_of_uint d, String c rest).
Proof.
  intros Hc; induction d; cbn [NilEmpty.string_of_uint append json.digits];
    [now rewrite Hc | ..];
    match goal with
    | |- (if json.isDigit ?x then _ else _) = _ =>
        change (json.isDigit x) with true; cbv iota
    end;
    rewrite IHd; reflexivity.
Qed.

End Decimals.

(** ** Identifiers through the body of the first answer *)

Section Identifiers.

(** [%d] writes zero as ["0"], a positive number as its digits and a
    negative one as ["-"] and the digits of its opposite. *)
Lemma formatInt_pos (p : positive) :
  formatInt (Zpos p) = NilEmpty.string_of_uint (Pos.to_uint p).
Proof.
  unfold formatInt; cbn [Z.to_int NilZero.string_of_int].
  unfold NilZero.string_of_uint.
  pose proof (Unsigned.to_uint_nonnil p) as H.
  destruct (Pos.to_uint p); [congruence | reflexivity ..].
Qed.

Lemma formatInt_neg (p : positive) :
  formatInt (Zneg p) = String "-" (NilEmpty.string_of_uint (Pos.to_uint p)).
Proof.
  unfold formatInt; cbn [Z.to_int NilZero.string_of_int].
  unfold NilZero.string_of_uint.
  pose proof (Unsigned.to_uint_nonnil p) as H.
  destruct (Pos.to_uint p); [congruence | reflexivity ..].
Qed.

Lemma decimal_to_uint (p : positive) :
  json.decimal 0 (NilEmpty.string_of_uint (Pos.to_uint p)) = Some (Zpos p).
Proof.
  rewrite decimal_string_of_uint, horner_zero, Unsigned.of_to; reflexivity.
Qed.

(** What [ParseInt] makes of a formatted number: the number when it fits
    64 bits, nothing otherwise. *)
Lemma ParseInt_formatInt (n : Z) :
  json.ParseInt (formatInt n)
  = if ((- 2 ^ 63 <=? n) && (n <? 2 ^ 63))%Z then Some n else None.
Proof.
  destruct n as [|p|p].
  - reflexivity.
  - rewrite formatInt_pos; unfold json.ParseInt.
    destruct (string_of_uint_leading _ (to_uint_leadingDigit p)) as (c & l & E & Hc & _).
    assert (Hm : c <> "-"%char) by (intros ->; discriminate).
    pose proof (decimal_to_uint p) as D; rewrite E in *.
    destruct c as [[|] [|] [|] [|] [|] [|] [|] [|]];
      try (exfalso; apply Hm; reflexivity); rewrite D; reflexivity.
  - rewrite formatInt_neg; unfold json.ParseInt.
    rewrite decimal_to_uint; reflexivity.
Qed.

(** A formatted number in front of a closing brace is scanned as a
    number literal, whole. *)
Lemma scanNumber_formatInt (n : Z) (rest : string) :
  json.scanNumber (formatInt n ++ String "}" rest)
  = Some (formatInt n, String "}" rest).
Proof.
  assert (P : forall p,
    json.scanNumber (NilEmpty.string_of_uint (Pos.to_uint p) ++ String "}" rest)
    = Some (NilEmpty.string_of_uint (Pos.to_uint p) ++ "", String "}" rest)).
  { intros p.
    destruct (string_of_uint_leading _ (to_uint_leadingDigit p))
      as (c & l & E & Hc & Hz).
    pose proof (digits_string_of_uint (Pos.to_uint p) "}" rest eq_refl) as D.
    unfold json.scanNumber.
    rewrite E in *; cbn [append] in *.
    assert (Hm : c <> "-"%char) by (intros ->; discriminate).
    destruct c as [[|] [|] [|] [|] [|] [|] [|] [|]];
      try (exfalso; apply Hm; reflexivity);
      try (exfalso; apply Hz; reflexivity);
      unfold json.digits1; rewrite D; reflexivity. }
  assert (Q : forall p,
    json.scanNumber (String "-" (NilEmpty.string_of_uint (Pos.to_uint p))
                       ++ String "}" rest)
    = Some (String "-" (NilEmpty.string_of_uint (Pos.to_uint p) ++ ""),
            String "}" rest)).
  { intros p.
    destruct (string_of_uint_leading _ (to_uint_leadingDigit p))
      as (c & l & E & Hc & Hz).
    pose proof (digits_string_of_uint (Pos.to_uint p) "}" rest eq_refl) as D.
    unfold json.scanNumber.
    rewrite E in *; cbn [append] in *.
    destruct c as [[|] [|] [|] [|] [|] [|] [|] [|]];
      try (exfalso; apply Hz; reflexivity);
      unfold json.digits1; rewrite D; reflexivity. }
  destruct n as [|p|p].
  - reflexivity.
  - rewrite formatInt_pos, P, append_empty_r; reflexivity.
  - rewrite formatInt_neg, Q, append_empty_r; reflexivity.
Qed.

(** The first byte of a formatted number is a digit or the minus sign. *)
Lemma formatInt_first (n : Z) :
  exists c l,
    formatInt n = String c l /\ (json.isDigit c = true \/ c = "-"%char).
Proof.
  destruct n as [|p|p].
  - exists "0"%char, ""; auto.
  - rewrite formatInt_pos.
    destruct (string_of_uint_leading _ (to_uint_leadingDigit p)) as (c & l & E & Hc & _).
    exists c, l; auto.
  - rewrite formatInt_neg; eexists _, _; auto.
Qed.

End Identifiers.

Section IdentifierBodies.

(** A formatted number in front of a closing brace is read as a value:
    nothing is skipped before it, and it is the number literal. *)
Lemma parseValue_formatInt (fuel : nat) (depth : N) (n : Z) (rest : string) :
  json.skipSpace (formatInt n ++ String "}" rest) = formatInt n ++ String "}" rest
  /\ json.parseValue (S fuel) depth (formatInt n ++ String "}" rest)
     = Some (json.Number (formatInt n), String "}" rest).
Proof.
  pose proof (scanNumber_formatInt n rest) as SN.
  destruct (formatInt_first n) as (c & l & E & Hc).
  rewrite E in SN |- *; cbn [append] in SN |- *.
  destruct c as [[|] [|] [|] [|] [|] [|] [|] [|]];
    (destruct Hc as [Hc|Hc]; [try discriminate Hc | try discriminate Hc]);
    (split; [reflexivity|]);
    cbn -[json.scanNumber]; rewrite SN; reflexivity.
Qed.

(** The body that holds only the identifier [n] is valid JSON: an object
    whose one member [id] is the number literal of [n]. *)
Lemma parse_idBody (n : Z) :
  json.parse (idBody n) = Some (json.Object [("id", json.Number (formatInt n))]).
Proof.
  unfold json.parse, idBody.
  assert (F : exists k,
    2 * String.length (withQuotes "{'id':" ++ formatInt n ++ "}") + 2 = S (S (S k))).
  { exists (2 * String.length (formatInt n ++ "}") + 11).
    change (withQuotes "{'id':" ++ formatInt n ++ "}")
      with (withQuotes "{'id':" ++ (formatInt n ++ "}")).
    rewrite length_append.
    change (String.length (withQuotes "{'id':")) with 6; lia. }
  destruct F as [k ->].
  destruct (parseValue_formatInt k 1 n "") as [Sk Pv].
  change (withQuotes "{'id':" ++ formatInt n ++ "}")
    with (String "{" (String json.quote (String "i" (String "d"
            (String json.quote (String ":" (formatInt n ++ "}"))))))).
  remember (formatInt n ++ "}") as s eqn:Es.
  (* the object and its first member, one call at a time *)
  change (json.skipSpace
            (String "{" (String json.quote (String "i" (String "d"
               (String json.quote (String ":" s)))))))
    with (String "{" (String json.quote (String "i" (String "d"
            (String json.quote (String ":" s)))))).
  change (json.parseValue (S (S (S k))) 0
            (String "{" (String json.quote (String "i" (String "d"
               (String json.quote (String ":" s)))))))
    with (match
            match json.parseValue (S k) 1 (json.skipSpace s) with
            | Some (v, rest') => Some (("id", v), rest')
            | None => None
            end
          with
          | Some (m, rest) =>
              match json.parseMembers (S (S k)) 1 (json.skipSpace rest) with
              | Some (ms, rest') => Some (json.Object (m :: ms), rest')
              | None => None
              end
          | None => None
          end).
  rewrite Sk, Pv; reflexivity.
Qed.

(** Decoding the body that holds the identifier [n]: the identifier is
    [n] when it fits a 64-bit [int], and is left at 0 with a type error
    otherwise. *)
Lemma Unmarshal_idBody (n : Z) :
  Unmarshal (idBody n) zeroResponse
  = if ((- 2 ^ 63 <=? n) && (n <? 2 ^ 63))%Z
    then ({| Id := n; Url := "" |}, None)
    else (zeroResponse,
          Some (json.UnmarshalTypeError ("number " ++ formatInt n) "Id")).
Proof.
  unfold Unmarshal; rewrite parse_idBody.
  cbn [decodeMembers]; unfold decodeMember.
  change ((("id" =? "Id") || json.equalFold "id" "Id")) with true; cbv iota.
  rewrite ParseInt_formatInt.
  destruct ((- 2 ^ 63 <=? n) && (n <? 2 ^ 63))%Z; reflexivity.
Qed.

End IdentifierBodies.

Section IdentifierRoundTrip.

Variable w : world.
Variable cfg : config.

(** X16: every identifier that fits a 64-bit [int] makes the round trip:
    when the deployment request is answered 201 with a body holding the
    identifier [n], the status request is addressed to
    [{api_base}/repos/{owner}/{repo}/deployments/n/statuses], with [n]
    written in decimal. *)
Theorem deployment_id_round_trip (n : Z) (owner repo : string) (resp : response) :
  (- 2 ^ 63 <= n < 2 ^ 63)%Z ->
  ownerAndRepo (RepositoryURL cfg) = Returned (owner, repo) ->
  urlError w (deploymentsURL cfg owner repo) = None ->
  roundTrip w [] (deploymentCall w cfg owner repo) = Ok resp ->
  StatusCode resp = 201%Z ->
  Body resp = Readable (idBody n) ->
  urlError w (statusesURL cfg owner repo n) = None ->
  deploymentIdOf (idBody n) = n
  /\ requests (fst (run (createDeployment w cfg)))
     = [deploymentCall w cfg owner repo; statusCall w cfg owner repo n]
  /\ URL (statusCall w cfg owner repo n)
     = APIURL cfg ++ "/repos/" ++ owner ++ "/" ++ repo
       ++ "/deployments/" ++ formatInt n ++ "/statuses".
Proof.
  intros Hn Ho Hu Hr Hs Hb Hu2.
  assert (E : deploymentIdOf (idBody n) = n).
  { unfold deploymentIdOf; rewrite Unmarshal_idBody.
    replace ((- 2 ^ 63 <=? n) && (n <? 2 ^ 63))%Z with true; [reflexivity|].
    symmetry; apply andb_true_iff; split; [apply Z.leb_le | apply Z.ltb_lt]; lia. }
  split; [exact E|]; split; [|reflexivity].
  destruct (createDeployment_ignores_decoding_errors w cfg owner repo (idBody n) resp
              Ho Hu Hr Hs Hb) as (t & -> & Ht).
  fold (deploymentIdOf (idBody n)); rewrite E.
  rewrite (createDeploymentStatus_requests w cfg owner repo n t Ho Hu2), Ht.
  reflexivity.
Qed.

(** X17: an identifier that does not fit a 64-bit [int] is not decoded:
    the identifier stays 0 and the status request is made for
    deployment 0. *)
Theorem oversized_id_addresses_deployment_zero (n : Z) (owner repo : string)
  (resp : response) :
  (n < - 2 ^ 63 \/ 2 ^ 63 <= n)%Z ->
  ownerAndRepo (RepositoryURL cfg) = Returned (owner, repo) ->
  urlError w (deploymentsURL cfg owner repo) = None ->
  roundTrip w [] (deploymentCall w cfg owner repo) = Ok resp ->
  StatusCode resp = 201%Z ->
  Body resp = Readable (idBody n) ->
  urlError w (statusesURL cfg owner repo 0) = None ->
  deploymentIdOf (idBody n) = 0%Z
  /\ requests (fst (run (createDeployment w cfg)))
     = [deploymentCall w cfg owner repo; statusCall w cfg owner repo 0].
Proof.
  intros Hn Ho Hu Hr Hs Hb Hu2.
  assert (E : deploymentIdOf (idBody n) = 0%Z).
  { unfold deploymentIdOf; rewrite Unmarshal_idBody.
    replace ((- 2 ^ 63 <=? n) && (n <? 2 ^ 63))%Z with false; [reflexivity|].
    symmetry; apply andb_false_iff.
    destruct Hn; [left; apply Z.leb_gt | right; apply Z.ltb_ge]; lia. }
  split; [exact E|].
  destruct (createDeployment_ignores_decoding_errors w cfg owner repo (idBody n) resp
              Ho Hu Hr Hs Hb) as (t & -> & Ht).
  fold (deploymentIdOf (idBody n)); rewrite E.
  rewrite (createDeploymentStatus_requests w cfg owner repo 0 t Ho Hu2), Ht.
  reflexivity.
Qed.

End IdentifierRoundTrip.

Lemma deployment_id_round_trip_witness :
  map URL (requests (fst (run (createDeployment
    (scriptedWorld (fun _ => None) (created (idBody 1234567890123)) (created ""))
    sampleConfig))))
  = [ "https://api.github.com/repos/acme/widgets/deployments";
      "https://api.github.com/repos/acme/widgets/deployments/1234567890123/statuses" ].
Proof.
  destruct (deployment_id_round_trip
              (scriptedWorld (fun _ => None) (created (idBody 1234567890123))
                 (created ""))
              sampleConfig 1234567890123 "acme" "widgets"
              (created (idBody 1234567890123))
              ltac:(lia) eq_refl eq_refl eq_refl eq_refl eq_refl eq_refl)
    as (_ & E & _).
  rewrite E; vm_compute; reflexivity.
Defined.

Lemma oversized_id_addresses_deployment_zero_witness :
  map URL (requests (fst (run (createDeployment
    (scriptedWorld (fun _ => None) (created (idBody (2 ^ 63))) (created ""))
    sampleConfig))))
  = [ "https://api.github.com/repos/acme/widgets/deployments";
      "https://api.github.com/repos/acme/widgets/deployments/0/statuses" ].
Proof.
  destruct (oversized_id_addresses_deployment_zero
              (scriptedWorld (fun _ => None) (created (idBody (2 ^ 63))) (created ""))
              sampleConfig (2 ^ 63) "acme" "widgets" (created (idBody (2 ^ 63)))
              ltac:(lia) eq_refl eq_refl eq_refl eq_refl eq_refl eq_refl)
    as (_ & E).
  rewrite E; vm_compute; reflexivity.
Defined.

(** ** The end of the process *)


